(** * AetherCore operator dashboard: pending-queue reconciliation

    A shallow embedding of the React front end of AetherCore:

    - [ArchivosPendientes]  the list of files awaiting a decision and the
      approve / reject buttons of each row;
    - [Dashboard]           the component that owns the pending list and the
      three counters, fed by the REST snapshot ([cargarArchivos]), by the
      WebSocket messages (the [mensajes] effect) and by the outcome of the
      approve / reject command ([handleConfirmarAccion]); it also checks the
      session token ([verificarToken]);
    - [ModalAprobacion]     the confirmation dialog ([handleSubmit]);
    - [useWebSocket]        the hook that keeps the log of parsed messages;
    - [LoginPage], [App] and the axios interceptors of [services/api], for
      the session across login, reload and logout.

    React state is a record; every handler is a function from the state
    before to the state after.  What a handler does to the outside (network
    calls, alerts, console output, timers, the [onLogout] callback) is
    appended, in program order, to the trace [efectos].  The answer of an
    awaited call is an argument of the handler that awaits it: the axios
    instance and its interceptors stay outside, a handler sees the settled
    outcome of its call.  Built-ins whose full definition lives in the
    JavaScript engine ([toLowerCase], [trim], [JSON.parse], the base64
    decoding of the token) are section variables; every property below
    holds for whatever they compute.  The [mensajes] effect runs once per
    render in which the log has grown, and looks at the last message of
    the log only: [entregarLote] is such a render after the frames of a
    batch were appended, and [applyEvent] is the case of a single frame
    that gets a render of its own. *)

From Stdlib Require Import ZArith List String Ascii Bool Lia.
Import ListNotations.

Local Open Scope string_scope.
Local Open Scope list_scope.
Local Open Scope Z_scope.

(** ** JavaScript values used by the components *)

(** A file id as it comes out of JSON: a number or a string.  [id_eqb] is
    the strict equality [===] on such values. *)
Inductive Id : Type :=
| IdNum (n : Z)
| IdStr (s : string).

Definition id_eqb (a b : Id) : bool :=
  match a, b with
  | IdNum x, IdNum y => Z.eqb x y
  | IdStr x, IdStr y => String.eqb x y
  | _, _ => false
  end.

(** [s.includes(sub)]: [sub] occurs in [s] as a contiguous run. *)
Fixpoint includes (s sub : string) : bool :=
  if String.prefix sub s then true
  else match s with
       | EmptyString => false
       | String _ rest => includes rest sub
       end.

(** The part of [toLowerCase] and [trim] that concerns ASCII text; these are
    the instances used to run the model on sample data.  The components
    themselves are stated over the built-ins, whatever they do on the rest of
    Unicode. *)
Definition ascii_lower (c : ascii) : ascii :=
  let n := nat_of_ascii c in
  if (Nat.leb 65 n && Nat.leb n 90)%bool then ascii_of_nat (n + 32) else c.

Fixpoint asciiToLowerCase (s : string) : string :=
  match s with
  | EmptyString => EmptyString
  | String c rest => String (ascii_lower c) (asciiToLowerCase rest)
  end.

Definition ascii_space (c : ascii) : bool :=
  let n := nat_of_ascii c in
  (Nat.leb 9 n && Nat.leb n 13)%bool || Nat.eqb n 32.

Fixpoint trimStart (s : string) : string :=
  match s with
  | EmptyString => EmptyString
  | String c rest => if ascii_space c then trimStart rest else s
  end.

Fixpoint trimEnd (s : string) : string :=
  match s with
  | EmptyString => EmptyString
  | String c rest =>
      match trimEnd rest with
      | EmptyString => if ascii_space c then EmptyString else String c EmptyString
      | t => String c t
      end
  end.

Definition asciiTrim (s : string) : string := trimEnd (trimStart s).

(** ** Data model *)

(** A pending file as the REST snapshot and the push messages carry it.
    Absent fields are [None]; [estado] is only present in the file carried
    by a [CAMBIO_ESTADO] message. *)
Record Archivo : Type := mkArchivo {
  id : Id;
  nombre_archivo : string;
  tipo_archivo : string;
  fecha_recepcion : option string;
  num_registros : option Z;
  tamano : option Z;
  errores : option (list string);
  estado : option string
}.

(** A parsed WebSocket message: [{ tipo, archivo }]. *)
Record Mensaje : Type := mkMensaje {
  tipo : string;
  archivo : Archivo
}.

(** The three counters shown by the stat cards. *)
Record Stats : Type := mkStats {
  pendientes : Z;
  procesados : Z;
  rechazados : Z
}.

(** [modalData]: the file under confirmation and the kind of action
    (['aprobar'] or ['rechazar']). *)
Record ModalData : Type := mkModalData {
  md_archivo : Archivo;
  md_tipo : string
}.

(** REST calls issued through [archivoAPI] and [authAPI]. *)
Inductive Llamada : Type :=
| ApiMe
| ApiObtenerPendientes
| ApiAprobar (archivoId : Id) (aprobado : bool) (comentario : option string).

(** Functions handed to [setTimeout]. *)
Inductive Callback : Type :=
| CbCargarArchivos.

(** What a handler does to the outside, in program order.  Console output
    is recorded by its fixed text; the values printed after it are left out. *)
Inductive Efecto : Type :=
| Red (c : Llamada)
| Alert (msg : string)
| ConsoleError (msg : string)
| ConsoleLog (msg : string)
| SetTimeout (cb : Callback) (ms : Z)
| OnLogout.

(** Outcome of an awaited REST call: it resolves, or it rejects with the
    error axios builds ([error.response?.status],
    [error.response?.data?.detail], [error.message]). *)
Record ErrorHttp : Type := mkErrorHttp {
  status : option Z;
  detail : option string;
  message : string
}.

(** [response.data] of [GET /archivos/pendientes]: an array of files, or
    any other JSON value. *)
Inductive Datos : Type :=
| Array (l : list Archivo)
| NoArray.

Inductive Respuesta (A : Type) : Type :=
| Resuelve (a : A)
| Rechaza (e : ErrorHttp).
Arguments Resuelve {A} a.
Arguments Rechaza {A} e.

(** Result of [JSON.parse(atob(token.split('.')[1]))] followed by the read of
    [payload.exp]: the decoding throws, or the payload has no numeric [exp],
    or [exp] is a number of seconds. *)
Inductive Payload : Type :=
| PayloadError
| PayloadSinExp
| PayloadExp (exp : Z).

(** The state of the page: the [useState] cells of [Dashboard],
    [useWebSocket] and [ModalAprobacion], the two [localStorage] keys, the
    [onLogout] prop (present or not) and the trace of effects. *)
Record Mundo : Type := mkMundo {
  archivos : list Archivo;
  loading : bool;
  modalData : option ModalData;
  stats : Stats;
  tokenExpirando : bool;
  mensajes : list Mensaje;
  conectado : bool;
  comentarios : string;
  enviando : bool;
  token : option string;
  usuarioGuardado : option string;
  onLogout : bool;
  efectos : list Efecto
}.

(** ** State updates

    One function per [useState] setter; [emitir] records an effect. *)

Definition setArchivos (f : list Archivo -> list Archivo) (w : Mundo) : Mundo :=
  mkMundo (f (archivos w)) (loading w) (modalData w) (stats w)
    (tokenExpirando w) (mensajes w) (conectado w) (comentarios w)
    (enviando w) (token w) (usuarioGuardado w) (onLogout w) (efectos w).

Definition setLoading (b : bool) (w : Mundo) : Mundo :=
  mkMundo (archivos w) b (modalData w) (stats w)
    (tokenExpirando w) (mensajes w) (conectado w) (comentarios w)
    (enviando w) (token w) (usuarioGuardado w) (onLogout w) (efectos w).

(** Opening the dialog mounts [ModalAprobacion], whose cells start at
    [''] and [false]; while it stays mounted they keep their values. *)
Definition setModalData (m : option ModalData) (w : Mundo) : Mundo :=
  let monta := match modalData w, m with None, Some _ => true | _, _ => false end in
  mkMundo (archivos w) (loading w) m (stats w)
    (tokenExpirando w) (mensajes w) (conectado w)
    (if monta then "" else comentarios w)
    (if monta then false else enviando w)
    (token w) (usuarioGuardado w) (onLogout w) (efectos w).

Definition setStats (f : Stats -> Stats) (w : Mundo) : Mundo :=
  mkMundo (archivos w) (loading w) (modalData w) (f (stats w))
    (tokenExpirando w) (mensajes w) (conectado w) (comentarios w)
    (enviando w) (token w) (usuarioGuardado w) (onLogout w) (efectos w).

Definition setTokenExpirando (b : bool) (w : Mundo) : Mundo :=
  mkMundo (archivos w) (loading w) (modalData w) (stats w)
    b (mensajes w) (conectado w) (comentarios w)
    (enviando w) (token w) (usuarioGuardado w) (onLogout w) (efectos w).

Definition setMensajes (f : list Mensaje -> list Mensaje) (w : Mundo) : Mundo :=
  mkMundo (archivos w) (loading w) (modalData w) (stats w)
    (tokenExpirando w) (f (mensajes w)) (conectado w) (comentarios w)
    (enviando w) (token w) (usuarioGuardado w) (onLogout w) (efectos w).

Definition setConectado (b : bool) (w : Mundo) : Mundo :=
  mkMundo (archivos w) (loading w) (modalData w) (stats w)
    (tokenExpirando w) (mensajes w) b (comentarios w)
    (enviando w) (token w) (usuarioGuardado w) (onLogout w) (efectos w).

Definition setComentarios (s : string) (w : Mundo) : Mundo :=
  mkMundo (archivos w) (loading w) (modalData w) (stats w)
    (tokenExpirando w) (mensajes w) (conectado w) s
    (enviando w) (token w) (usuarioGuardado w) (onLogout w) (efectos w).

Definition setEnviando (b : bool) (w : Mundo) : Mundo :=
  mkMundo (archivos w) (loading w) (modalData w) (stats w)
    (tokenExpirando w) (mensajes w) (conectado w) (comentarios w)
    b (token w) (usuarioGuardado w) (onLogout w) (efectos w).

(** [localStorage.removeItem('token')] and [localStorage.removeItem('usuario')]. *)
Definition removeToken (w : Mundo) : Mundo :=
  mkMundo (archivos w) (loading w) (modalData w) (stats w)
    (tokenExpirando w) (mensajes w) (conectado w) (comentarios w)
    (enviando w) None (usuarioGuardado w) (onLogout w) (efectos w).

Definition removeUsuario (w : Mundo) : Mundo :=
  mkMundo (archivos w) (loading w) (modalData w) (stats w)
    (tokenExpirando w) (mensajes w) (conectado w) (comentarios w)
    (enviando w) (token w) None (onLogout w) (efectos w).

Definition emitir (e : Efecto) (w : Mundo) : Mundo :=
  mkMundo (archivos w) (loading w) (modalData w) (stats w)
    (tokenExpirando w) (mensajes w) (conectado w) (comentarios w)
    (enviando w) (token w) (usuarioGuardado w) (onLogout w) (efectos w ++ [e]).

(** Statements of a handler run top to bottom: [w |> f |> g] is [f] then [g]. *)
Notation "w |> f" := (f w) (at level 45, left associativity, only parsing).

(** [!v] and [v === 0] on a number that may be absent. *)
Definition js_not_num (v : option Z) : bool :=
  match v with
  | None => true
  | Some n => n =? 0
  end.

Definition js_es_cero (v : option Z) : bool :=
  match v with
  | Some n => n =? 0
  | None => false
  end.

(** [error.response?.status === n]. *)
Definition status_es (s : option Z) (n : Z) : bool :=
  match s with
  | Some v => v =? n
  | None => false
  end.

(** [s || alt] on a string that may be absent: the empty string is falsy. *)
Definition js_o (s : option string) (alt : string) : string :=
  match s with
  | Some d => if String.eqb d "" then alt else d
  | None => alt
  end.

(** [s || null]. *)
Definition js_o_null (s : string) : option string :=
  if String.eqb s "" then None else Some s.

(** The initial state of a freshly mounted page for a logged-in operator. *)
Definition inicial (tok usr : option string) (conLogout : bool) : Mundo :=
  mkMundo [] true None (mkStats 0 0 0) false [] false "" false
    tok usr conLogout [].

(** ** ArchivosPendientes *)

Section ArchivosPendientes.

(** [String.prototype.toLowerCase]. *)
Variable toLowerCase : string -> string.

(** The callback of [archivo.errores.some(...)]. *)
Definition patronCritico (e : string) : bool :=
  let error := toLowerCase e in
  includes error "vacío"
  || includes error "vacio"
  || includes error "corrupto"
  || includes error "sin datos"
  || includes error "nombre"
  || includes error "inválido"
  || includes error "invalido".

Definition esErrorCritico (a : Archivo) : bool :=
  if js_not_num (num_registros a) || js_es_cero (num_registros a) then true
  else if match errores a with
          | Some l => existsb patronCritico l
          | None => false
          end then true
  else false.

(** What one row of the list offers: the [disabled] attribute of each of
    its two buttons.  The reject button carries no [disabled] attribute. *)
Record Fila : Type := mkFila {
  fila_archivo : Archivo;
  critico : bool;
  aprobar_disabled : bool;
  rechazar_disabled : bool
}.

Definition fila (a : Archivo) : Fila :=
  let critico := esErrorCritico a in
  mkFila a critico critico false.

(** The three things the component can render. *)
Inductive Vista : Type :=
| Cargando
| TodoAlDia
| Lista (filas : list Fila).

Definition ArchivosPendientes (archivos : list Archivo) (loading : bool) : Vista :=
  if loading then Cargando
  else if Nat.eqb (List.length archivos) 0 then TodoAlDia
  else Lista (map fila archivos).

End ArchivosPendientes.

(** ** Dashboard *)

Definition handleAprobar (a : Archivo) (w : Mundo) : Mundo :=
  setModalData (Some (mkModalData a "aprobar")) w.

Definition handleRechazar (a : Archivo) (w : Mundo) : Mundo :=
  setModalData (Some (mkModalData a "rechazar")) w.

(** A click on a button of a row: a disabled button does not fire
    [onClick]; otherwise [onAprobar] is [handleAprobar] and [onRechazar] is
    [handleRechazar]. *)
Definition clickAprobar (f : Fila) (w : Mundo) : Mundo :=
  if aprobar_disabled f then w else handleAprobar (fila_archivo f) w.

Definition clickRechazar (f : Fila) (w : Mundo) : Mundo :=
  if rechazar_disabled f then w else handleRechazar (fila_archivo f) w.

Definition handleLogoutSesion (w : Mundo) : Mundo :=
  let w := w |> removeToken |> removeUsuario in
  if onLogout w then emitir OnLogout w else w.

Section SessionGuard.

(** [payload.exp] out of [JSON.parse(atob(token.split('.')[1]))]. *)
Variable decodificar : string -> Payload.

(** [ahora] is [Date.now()], in milliseconds. *)
Definition verificarExpiracionToken (tok : string) (ahora : Z) (w : Mundo) : Mundo :=
  match decodificar tok with
  | PayloadError => emitir (ConsoleError "Error decodificando token:") w
  | PayloadSinExp => setTokenExpirando false w
  | PayloadExp exp =>
      let tiempoRestante := exp * 1000 - ahora in
      let w := setTokenExpirando
                 ((0 <? tiempoRestante) && (tiempoRestante <? 10 * 60 * 1000)) w in
      if tiempoRestante <=? 0 then handleLogoutSesion w else w
  end.

(** [me] is the outcome of [await authAPI.me()]. *)
Definition verificarToken (me : Respuesta unit) (ahora : Z) (w : Mundo) : Mundo :=
  match token w with
  | None => handleLogoutSesion w
  | Some tok =>
      if String.eqb tok "" then handleLogoutSesion w
      else
        let w := verificarExpiracionToken tok ahora w in
        let w := emitir (Red ApiMe) w in
        match me with
        | Resuelve _ => w
        | Rechaza error =>
            if status_es (status error) 401 then handleLogoutSesion w else w
        end
  end.

End SessionGuard.

(** The body of the effect that depends on [mensajes]: it looks at the last
    message of the log only. *)
Definition efectoMensajes (w : Mundo) : Mundo :=
  if Nat.eqb (List.length (mensajes w)) 0 then w
  else
    match nth_error (mensajes w) (List.length (mensajes w) - 1) with
    | None => w
    | Some ultimo =>
        if String.eqb (tipo ultimo) "NUEVO_ARCHIVO" then
          w |> setArchivos (fun prev =>
                 match find (fun a => id_eqb (id a) (id (archivo ultimo))) prev with
                 | Some _ => prev
                 | None => prev ++ [archivo ultimo]
                 end)
            |> setStats (fun prev =>
                 mkStats (pendientes prev + 1) (procesados prev) (rechazados prev))
        else if String.eqb (tipo ultimo) "CAMBIO_ESTADO" then
          let esAprobado :=
            match estado (archivo ultimo) with
            | Some e => String.eqb e "APROBADO"
            | None => false
            end in
          w |> setArchivos (filter (fun a => negb (id_eqb (id a) (id (archivo ultimo)))))
            |> setStats (fun prev =>
                 mkStats (Z.max 0 (pendientes prev - 1))
                         (if esAprobado then procesados prev + 1 else procesados prev)
                         (if negb esAprobado then rechazados prev + 1 else rechazados prev))
        else w
    end.

(** [r] is the outcome of [await archivoAPI.obtenerPendientes()]. *)
Definition cargarArchivos (r : Respuesta Datos) (w : Mundo) : Mundo :=
  let w := w |> setLoading true |> emitir (Red ApiObtenerPendientes) in
  let w :=
    match r with
    | Resuelve (Array data) =>
        w |> setArchivos (fun _ => data)
          |> setStats (fun prev =>
               mkStats (Z.of_nat (List.length data)) (procesados prev) (rechazados prev))
    | Resuelve NoArray => setArchivos (fun _ => []) w
    | Rechaza error => emitir (ConsoleError "Error cargando archivos:") w
    end in
  setLoading false w.

(** [r] is the outcome of [await archivoAPI.aprobar(...)]. *)
Definition handleConfirmarAccion (a : Archivo) (aprobado : bool)
    (coment : option string) (r : Respuesta unit) (w : Mundo) : Mundo :=
  let w := emitir (Red (ApiAprobar (id a) aprobado coment)) w in
  match r with
  | Resuelve _ =>
      w |> setArchivos (filter (fun x => negb (id_eqb (id x) (id a))))
        |> setModalData None
  | Rechaza error =>
      let w :=
        if status_es (status error) 401 then
          emitir (Alert "El archivo ya no se encuentra disponible (posible reinicio del servidor). Se actualizará la lista.") w
        else
          emitir (Alert ("Atención: " ++ js_o (detail error) (message error))%string) w in
      w |> setModalData None
        |> setLoading true
        |> emitir (SetTimeout CbCargarArchivos 1000)
  end.

(** What runs when a timer fires. *)
Definition ejecutar (cb : Callback) (r : Respuesta Datos) (w : Mundo) : Mundo :=
  match cb with
  | CbCargarArchivos => cargarArchivos r w
  end.

(** ** ModalAprobacion *)

Section ModalAprobacion.

(** [String.prototype.trim]. *)
Variable trim : string -> string.

(** [a] and [tipoAccion] are the props [archivo] and [tipo]; [onConfirmar]
    is [handleConfirmarAccion], whose awaited call answers [r]. *)
Definition handleSubmit (a : Archivo) (tipoAccion : string)
    (r : Respuesta unit) (w : Mundo) : Mundo :=
  let esAprobacion := String.eqb tipoAccion "aprobar" in
  if negb esAprobacion && String.eqb (trim (comentarios w)) "" then
    emitir (Alert "Por favor, ingresa un comentario explicando el motivo del rechazo") w
  else
    w |> setEnviando true
      |> handleConfirmarAccion a esAprobacion (js_o_null (trim (comentarios w))) r
      |> setEnviando false.

(** The form of the dialog that is on screen, if any, is submitted. *)
Definition submit (r : Respuesta unit) (w : Mundo) : Mundo :=
  match modalData w with
  | Some m => handleSubmit (md_archivo m) (md_tipo m) r w
  | None => w
  end.

End ModalAprobacion.

(** ** useWebSocket *)

Definition agregarMensaje (data : Mensaje) (w : Mundo) : Mundo :=
  setMensajes (fun prev => prev ++ [data]) w.

Section UseWebSocket.

(** [JSON.parse] on a text frame: [None] when it throws. *)
Variable JSON_parse : string -> option Mensaje.

Definition onopen (w : Mundo) : Mundo :=
  w |> emitir (ConsoleLog "✅ WebSocket conectado exitosamente")
    |> setConectado true.

Definition onmessage (data : string) (w : Mundo) : Mundo :=
  match JSON_parse data with
  | Some d =>
      w |> emitir (ConsoleLog "📩 Notificación recibida:")
        |> agregarMensaje d
  | None => emitir (ConsoleError "Error parseando mensaje WS:") w
  end.

Definition onclose (code : Z) (w : Mundo) : Mundo :=
  let w := w |> emitir (ConsoleLog "WebSocket desconectado")
             |> setConectado false in
  if (code =? 1008) || (code =? 403) then
    emitir (ConsoleError "Desconexión por política de seguridad (Token inválido o Ruta errónea)") w
  else w.

(** The earlier version of the hook parses outside any [try]: when
    [JSON.parse] throws, the exception leaves the handler.  [inr] is the
    state at the throw. *)
Definition onmessage_sin_try (data : string) (w : Mundo) : Mundo + Mundo :=
  match JSON_parse data with
  | Some d => inl (agregarMensaje d w)
  | None => inr w
  end.

(** A frame arrives: the hook handles it, and [Dashboard] re-runs its
    effect when [mensajes] is a new array. *)
Definition recibir (data : string) (w : Mundo) : Mundo :=
  match JSON_parse data with
  | Some _ => efectoMensajes (onmessage data w)
  | None => onmessage data w
  end.

Definition recibirTodos (frames : list string) (w : Mundo) : Mundo :=
  fold_left (fun w data => onmessage data w) frames w.

End UseWebSocket.

(** ** The store operations, as the specification names them *)

(** One parsed event reaches the store and gets a render of its own: it is
    appended to the log and the effect runs on the new log. *)
Definition applyEvent (m : Mensaje) (w : Mundo) : Mundo :=
  efectoMensajes (agregarMensaje m w).

(** The frames [ms] are appended to the log one after the other, as the
    hook does for frames that arrive before the next render. *)
Definition agregarVarios (ms : list Mensaje) (w : Mundo) : Mundo :=
  fold_left (fun w m => agregarMensaje m w) ms w.

(** One render after the frames [ms] were appended.  The effect depends on
    [mensajes]: it does not run when nothing was appended, and otherwise it
    runs once, on the log as it is at that render. *)
Definition entregarLote (ms : list Mensaje) (w : Mundo) : Mundo :=
  match ms with
  | [] => w
  | _ :: _ => efectoMensajes (agregarVarios ms w)
  end.

(** The command for [a] succeeded. *)
Definition applyCommandResult (a : Archivo) (aprobado : bool)
    (coment : option string) (w : Mundo) : Mundo :=
  handleConfirmarAccion a aprobado coment (Resuelve tt) w.

Definition loadSnapshot (data : list Archivo) (w : Mundo) : Mundo :=
  cargarArchivos (Resuelve (Array data)) w.

(** What reaches the store: the frames appended before one render, with
    the run of the effect at that render, or a command success. *)
Inductive Op : Type :=
| OpLote (ms : list Mensaje)
| OpCommandOk (a : Archivo) (aprobado : bool) (coment : option string).

Definition aplicar (o : Op) (w : Mundo) : Mundo :=
  match o with
  | OpLote ms => entregarLote ms w
  | OpCommandOk a aprobado coment => applyCommandResult a aprobado coment w
  end.

Definition correr (ops : list Op) (w : Mundo) : Mundo :=
  fold_left (fun w o => aplicar o w) ops w.

Definition esEstadoAprobado (a : Archivo) : bool :=
  match estado a with
  | Some e => String.eqb e "APROBADO"
  | None => false
  end.

(** The message is a [CAMBIO_ESTADO] for the file [i] with the terminal
    status "approved" ([aprob = true]) or "not approved". *)
Definition cambioDe (i : Id) (aprob : bool) (m : Mensaje) : bool :=
  String.eqb (tipo m) "CAMBIO_ESTADO"
  && id_eqb (id (archivo m)) i
  && Bool.eqb (esEstadoAprobado (archivo m)) aprob.

(** [o] refers to the file [i] with the terminal status [aprob]: every
    frame of the batch does, or the command does. *)
Definition refiere (i : Id) (aprob : bool) (o : Op) : bool :=
  match o with
  | OpLote ms => forallb (cambioDe i aprob) ms
  | OpCommandOk a aprobado _ =>
      id_eqb (id a) i && Bool.eqb aprobado aprob
  end.

(** The effect runs for [o]: a render with at least one new frame. *)
Definition correEfecto (o : Op) : bool :=
  match o with
  | OpLote (_ :: _) => true
  | _ => false
  end.

(** Sample data. *)
Definition archivo1 : Archivo :=
  mkArchivo (IdNum 1) "ventas_01.txt" "TXT" (Some "2026-01-15T10:00:00")
    (Some 12) (Some 2048) (Some []) None.

Definition nuevoArchivo (a : Archivo) : Mensaje := mkMensaje "NUEVO_ARCHIVO" a.

Definition cambioEstado (i : Id) (e : option string) : Mensaje :=
  mkMensaje "CAMBIO_ESTADO" (mkArchivo i "" "" None None None None e).

Definition mundo0 : Mundo := inicial (Some "h.p.s") (Some "{}") true.

(** The keywords [esErrorCritico] looks for in a lower-cased error text. *)
Definition palabrasCriticas : list string :=
  ["vacío"; "vacio"; "corrupto"; "sin datos"; "nombre"; "inválido"; "invalido"].

(** The file has no record count or a count of zero, or one of its error
    texts, lower-cased, contains one of the keywords. *)
Definition condicionCritica (toLowerCase : string -> string) (a : Archivo) : Prop :=
  num_registros a = None
  \/ num_registros a = Some 0
  \/ exists es e k,
       errores a = Some es /\ In e es
       /\ In k palabrasCriticas /\ includes (toLowerCase e) k = true.

(** The effects performed between the state [w] and a later state [w']. *)
Definition nuevos (w w' : Mundo) : list Efecto :=
  skipn (List.length (efectos w)) (efectos w').

(** The frames of a list that parse, in order. *)
Definition parseados (parse : string -> option Mensaje) (frames : list string)
    : list Mensaje :=
  flat_map (fun data => match parse data with
                        | Some d => [d]
                        | None => []
                        end) frames.

(** The state after the snapshot [[archivo1]]. *)
Definition mundo1 : Mundo := loadSnapshot [archivo1] mundo0.

Definition aprobado1 : Mensaje := cambioEstado (IdNum 1) (Some "APROBADO").

(** A token whose payload says [exp = 100] seconds. *)
Definition decodificarFijo (tok : string) : Payload := PayloadExp 100.

(** A parser for two sample frames; every other frame is malformed. *)
Definition parseMuestra (data : string) : option Mensaje :=
  if String.eqb data "{nuevo 1}" then Some (nuevoArchivo archivo1)
  else if String.eqb data "{aprobado 1}" then Some aprobado1
  else None.

(** ** The rest of the page *)

(** [onCancelar] of the dialog: [() => setModalData(null)]. *)
Definition onCancelar (w : Mundo) : Mundo := setModalData None w.

(** One of the three triggers that write the list and the counters: a push
    event that gets a render of its own, the settled approve/reject
    command, the settled snapshot load. *)
Inductive Paso : Type :=
| PasoEvento (m : Mensaje)
| PasoComando (a : Archivo) (aprobado : bool) (coment : option string)
    (r : Respuesta unit)
| PasoCarga (r : Respuesta Datos).

Definition paso (p : Paso) (w : Mundo) : Mundo :=
  match p with
  | PasoEvento m => applyEvent m w
  | PasoComando a aprobado coment r => handleConfirmarAccion a aprobado coment r w
  | PasoCarga r => cargarArchivos r w
  end.

Definition pasos (ps : list Paso) (w : Mundo) : Mundo :=
  fold_left (fun w p => paso p w) ps w.

(** The ids of a list of files, in order. *)
Definition ids (l : list Archivo) : list Id := map id l.

(** A step that cannot bring a second copy of an id by itself: a snapshot
    whose records have distinct ids; events and commands always qualify. *)
Definition pasoSinRepetidos (p : Paso) : Prop :=
  match p with
  | PasoCarga (Resuelve (Array data)) => NoDup (ids data)
  | _ => True
  end.

Definition listado (i : Id) (w : Mundo) : bool :=
  existsb (fun a => id_eqb (id a) i) (archivos w).

(** The pending counter agrees with the list. *)
Definition cuadra (w : Mundo) : Prop :=
  pendientes (stats w) = Z.of_nat (List.length (archivos w)).

(** The [CAMBIO_ESTADO] events of a run whose carried status is (for
    [aprob = true]) or is not (for [aprob = false]) [APROBADO]. *)
Definition esCambio (aprob : bool) (p : Paso) : bool :=
  match p with
  | PasoEvento m =>
      String.eqb (tipo m) "CAMBIO_ESTADO"
      && Bool.eqb (esEstadoAprobado (archivo m)) aprob
  | _ => false
  end.

(** What can write the list and the counters between two renders: the
    frames appended before a render (with the run of the effect at that
    render), a settled command, a settled snapshot load. *)
Inductive Entrega : Type :=
| ELote (ms : list Mensaje)
| EComando (a : Archivo) (aprobado : bool) (coment : option string)
    (r : Respuesta unit)
| ECarga (r : Respuesta Datos).

Definition entregar (e : Entrega) (w : Mundo) : Mundo :=
  match e with
  | ELote ms => entregarLote ms w
  | EComando a aprobado coment r => handleConfirmarAccion a aprobado coment r w
  | ECarga r => cargarArchivos r w
  end.

Definition entregas (es : list Entrega) (w : Mundo) : Mundo :=
  fold_left (fun w e => entregar e w) es w.

(** [ms[ms.length - 1]]. *)
Definition ultimoDe (ms : list Mensaje) : option Mensaje :=
  nth_error ms (List.length ms - 1).

(** The render of [e] runs the effect on a [CAMBIO_ESTADO] whose carried
    status is (for [aprob = true]) or is not (for [aprob = false])
    [APROBADO]: the last frame of the batch is such a message. *)
Definition efectoCambio (aprob : bool) (e : Entrega) : bool :=
  match e with
  | ELote ms =>
      match ultimoDe ms with
      | Some m =>
          String.eqb (tipo m) "CAMBIO_ESTADO"
          && Bool.eqb (esEstadoAprobado (archivo m)) aprob
      | None => false
      end
  | _ => false
  end.

Definition cuentaEfectos (aprob : bool) (es : list Entrega) : Z :=
  Z.of_nat (List.length (filter (efectoCambio aprob) es)).

(** A delivery that cannot bring a second copy of an id by itself: a
    snapshot whose records have distinct ids; batches of frames and
    commands always qualify. *)
Definition entregaSinRepetidos (e : Entrega) : Prop :=
  match e with
  | ECarga (Resuelve (Array data)) => NoDup (ids data)
  | _ => True
  end.

(** An event that the list has room for: a [NUEVO_ARCHIVO] whose id is not
    listed, or a [CAMBIO_ESTADO] whose id is listed. *)
Definition eventoFresco (m : Mensaje) (w : Mundo) : Prop :=
  (tipo m = "NUEVO_ARCHIVO" /\ listado (id (archivo m)) w = false)
  \/ (tipo m = "CAMBIO_ESTADO" /\ listado (id (archivo m)) w = true).

(** The awaited call was rejected with status 401. *)
Definition rechaza401 {A : Type} (r : Respuesta A) : bool :=
  match r with
  | Resuelve _ => false
  | Rechaza e => status_es (status e) 401
  end.

(** The local check finds nothing against the token: its payload cannot be
    read, or carries no [exp], or the remaining lifetime is positive. *)
Definition vigente (p : Payload) (ahora : Z) : Prop :=
  match p with
  | PayloadExp exp => 0 < exp * 1000 - ahora
  | _ => True
  end.

(** ** useWebSocket: the connection *)

(** [s] without its ending [suf], when it ends with [suf]. *)
Fixpoint sinSufijo (suf s : string) : option string :=
  if String.eqb s suf then Some EmptyString
  else match s with
       | EmptyString => None
       | String c rest =>
           match sinSufijo suf rest with
           | Some p => Some (String c p)
           | None => None
           end
       end.

(** [s.replace(re, '')] for a pattern that is the literal [suf] anchored at
    the end of the text. *)
Definition quitarFinal (suf s : string) : string :=
  match sinSufijo suf s with
  | Some p => p
  | None => s
  end.

(** [baseUrl.replace(/\/ws\/?$/, '').replace(/\/$/, '')]: the first pattern
    matches the ending [/ws/] or the ending [/ws]. *)
Definition limpiarBase (baseUrl : string) : string :=
  let sinWs :=
    match sinSufijo "/ws/" baseUrl with
    | Some p => p
    | None => quitarFinal "/ws" baseUrl
    end in
  quitarFinal "/" sinWs.

(** What the mount effect of the hook does about the socket: nothing when
    no token is stored, otherwise [new WebSocket(wsUrl)].  [env] is
    [import.meta.env.VITE_WS_URL]. *)
Inductive Conexion : Type :=
| SinConexion
| NuevoWebSocket (wsUrl : string).

Definition conectar (env : option string) (w : Mundo) : Conexion :=
  match token w with
  | None => SinConexion
  | Some tok =>
      if String.eqb tok "" then SinConexion
      else
        let baseUrl := limpiarBase (js_o env "ws://localhost:8000") in
        NuevoWebSocket (baseUrl ++ "/ws/notificaciones?token=" ++ tok)%string
  end.

(** What the socket can tell the hook. *)
Inductive EventoWs : Type :=
| WsOpen
| WsMessage (data : string)
| WsClose (code : Z).

Section Canal2.

Variable JSON_parse : string -> option Mensaje.

Definition manejar (e : EventoWs) (w : Mundo) : Mundo :=
  match e with
  | WsOpen => onopen w
  | WsMessage data => onmessage JSON_parse data w
  | WsClose code => onclose code w
  end.

Definition manejarTodos (es : list EventoWs) (w : Mundo) : Mundo :=
  fold_left (fun w e => manejar e w) es w.

End Canal2.

(** The connection flag that a run of socket events leaves: the one of the
    last open or close, or the previous one when there is none. *)
Fixpoint ultimoEstado (es : list EventoWs) (antes : bool) : bool :=
  match es with
  | [] => antes
  | WsOpen :: rest => ultimoEstado rest true
  | WsClose _ :: rest => ultimoEstado rest false
  | WsMessage _ :: rest => ultimoEstado rest antes
  end.

(** ** The browser around the components *)

(** [localStorage.setItem('token', v)] and [localStorage.setItem('usuario', v)]. *)
Definition setItemToken (v : string) (w : Mundo) : Mundo :=
  mkMundo (archivos w) (loading w) (modalData w) (stats w)
    (tokenExpirando w) (mensajes w) (conectado w) (comentarios w)
    (enviando w) (Some v) (usuarioGuardado w) (onLogout w) (efectos w).

Definition setItemUsuario (v : string) (w : Mundo) : Mundo :=
  mkMundo (archivos w) (loading w) (modalData w) (stats w)
    (tokenExpirando w) (mensajes w) (conectado w) (comentarios w)
    (enviando w) (token w) (Some v) (onLogout w) (efectos w).

(** The stored token when it is truthy: [if (token)]. *)
Definition tokenGuardado (w : Mundo) : option string :=
  match token w with
  | Some tok => if String.eqb tok "" then None else Some tok
  | None => None
  end.

(** The identity record the backend returns. *)
Record Identidad : Type := mkIdentidad {
  nombre_completo : string;
  username : string
}.

(** The window: the storage (and trace) of [Mundo], the current
    [location.pathname], and the values assigned to [location.href]. *)
Record Ventana : Type := mkVentana {
  mundo : Mundo;
  pathname : string;
  destinos : list string
}.

Definition enMundo (f : Mundo -> Mundo) (v : Ventana) : Ventana :=
  mkVentana (f (mundo v)) (pathname v) (destinos v).

Definition irA (href : string) (v : Ventana) : Ventana :=
  mkVentana (mundo v) (pathname v) (destinos v ++ [href]).

(** ** services/api *)

Module Api.

(** [{ access_token, usuario }], the answer of [POST /auth/login]. *)
Record DatosLogin : Type := mkDatosLogin {
  access_token : string;
  usuario : Identidad
}.

(** The request interceptor: the [Authorization] header it sets, if any. *)
Definition authorization (v : Ventana) : option string :=
  match token (mundo v) with
  | Some tok => if String.eqb tok "" then None else Some ("Bearer " ++ tok)%string
  | None => None
  end.

(** The response interceptor on a rejected call to [url]; the error is
    rejected again afterwards in every case. *)
Definition interceptorError (url : string) (error : ErrorHttp) (v : Ventana) : Ventana :=
  if status_es (status error) 401 then
    if negb (includes url "/auth/login") then
      let v := v |> enMundo removeToken |> enMundo removeUsuario in
      if negb (String.eqb (pathname v) "/") then irA "/" v else v
    else v
  else v.

(** [authAPI.logout]. *)
Definition logout (v : Ventana) : Ventana :=
  v |> enMundo removeToken |> enMundo removeUsuario |> irA "/".

End Api.

(** ** LoginPage *)

Module LoginPage.

Record FormData : Type := mkFormData {
  username : string;
  password : string
}.

(** What the page does to the outside: the login call, the [onLogin]
    callback, a line on the error console. *)
Inductive Accion : Type :=
| Login (u p : string)
| OnLogin (data : Api.DatosLogin)
| ConsoleError (msg : string).

Record Estado : Type := mkEstado {
  formData : FormData;
  loading : bool;
  error : string;
  acciones : list Accion
}.

Definition setFormData (f : FormData) (s : Estado) : Estado :=
  mkEstado f (loading s) (error s) (acciones s).

Definition setLoading (b : bool) (s : Estado) : Estado :=
  mkEstado (formData s) b (error s) (acciones s).

Definition setError (e : string) (s : Estado) : Estado :=
  mkEstado (formData s) (loading s) e (acciones s).

Definition hacer (a : Accion) (s : Estado) : Estado :=
  mkEstado (formData s) (loading s) (error s) (acciones s ++ [a]).

(** [r] is the outcome of [await authAPI.login(...)]; [onLogin] returns
    normally. *)
Definition handleSubmit (r : Respuesta Api.DatosLogin) (s : Estado) : Estado :=
  let s := s |> setLoading true |> setError ""
             |> hacer (Login (username (formData s)) (password (formData s))) in
  let s :=
    match r with
    | Resuelve data => hacer (OnLogin data) s
    | Rechaza err =>
        let s := hacer (ConsoleError "Error al iniciar sesión:") s in
        if status_es (status err) 401 then
          setError "Usuario o contraseña incorrectos" s
        else if status_es (status err) 403 then
          setError "Acceso denegado" s
        else
          setError (js_o (detail err)
                      "Error al iniciar sesión. Por favor, verifica tu conexión.") s
    end in
  setLoading false s.

(** [name] and [value] are [e.target.name] and [e.target.value]; the form
    has the two inputs [username] and [password]. *)
Definition handleChange (name value : string) (s : Estado) : Estado :=
  let f := formData s in
  let f := if String.eqb name "username" then mkFormData value (password f)
           else if String.eqb name "password" then mkFormData (username f) value
           else f in
  let s' := setFormData f s in
  if String.eqb (error s) "" then s' else setError "" s'.

End LoginPage.

(** ** App *)

Module App.

Section Almacen.

(** [JSON.stringify] on the identity record. *)
Variable JSON_stringify : Identidad -> string.

Record Estado : Type := mkEstado {
  usuario : option Identidad;
  loading : bool;
  ventana : Ventana
}.

Definition setUsuario (u : option Identidad) (s : Estado) : Estado :=
  mkEstado u (loading s) (ventana s).

Definition setLoading (b : bool) (s : Estado) : Estado :=
  mkEstado (usuario s) b (ventana s).

Definition enVentana (f : Ventana -> Ventana) (s : Estado) : Estado :=
  mkEstado (usuario s) (loading s) (f (ventana s)).

Definition almacen (s : Estado) : Mundo := mundo (ventana s).

(** The state of [App] when the page is loaded in the window [v]. *)
Definition alCargar (v : Ventana) : Estado := mkEstado None true v.

(** The effect of the first render; [me] is the outcome of
    [await authAPI.me()]. *)
Definition verificarSesion (me : Respuesta Identidad) (s : Estado) : Estado :=
  let s :=
    match tokenGuardado (almacen s) with
    | Some _ =>
        let s := s |> enVentana (enMundo (emitir (ConsoleLog "Token detectado, verificando con backend...")))
                   |> enVentana (enMundo (emitir (Red ApiMe))) in
        match me with
        | Resuelve data =>
            s |> setUsuario (Some data)
              |> enVentana (enMundo (emitir (ConsoleLog "Sesión validada correctamente")))
        | Rechaza error =>
            s |> enVentana (enMundo (emitir (ConsoleError "Error validando sesión:")))
              |> enVentana (enMundo removeToken)
              |> enVentana (enMundo removeUsuario)
              |> setUsuario None
        end
    | None =>
        enVentana (enMundo (emitir (ConsoleLog "No hay token guardado"))) s
    end in
  setLoading false s.

Definition handleLogin (datosLogin : Api.DatosLogin) (s : Estado) : Estado :=
  s |> enVentana (enMundo (setItemToken (Api.access_token datosLogin)))
    |> enVentana (enMundo (setItemUsuario (JSON_stringify (Api.usuario datosLogin))))
    |> setUsuario (Some (Api.usuario datosLogin)).

Definition handleLogout (s : Estado) : Estado :=
  s |> enVentana Api.logout |> setUsuario None.

(** What [App] renders. *)
Inductive Pantalla : Type :=
| Verificando
| MuestraDashboard (u : Identidad)
| MuestraLogin.

Definition render (s : Estado) : Pantalla :=
  if loading s then Verificando
  else match usuario s with
       | Some u => MuestraDashboard u
       | None => MuestraLogin
       end.

End Almacen.

End App.

(** * Properties *)

(** ** Auxiliary facts *)

Lemma id_eqb_refl (i : Id) : id_eqb i i = true.
Proof.
  destruct i as [n|s]; simpl.
  - apply Z.eqb_refl.
  - apply String.eqb_refl.
Qed.

Lemma id_eqb_eq (i j : Id) : id_eqb i j = true <-> i = j.
Proof.
  destruct i as [n|s], j as [m|t]; simpl; split; intro H;
    try discriminate; try (inversion H; subst).
  - apply Z.eqb_eq in H. now subst.
  - apply Z.eqb_refl.
  - apply String.eqb_eq in H. now subst.
  - apply String.eqb_refl.
Qed.

(** [mensajes[mensajes.length - 1]] after an append is the appended message. *)
Lemma ultimo_agregado (l : list Mensaje) (m : Mensaje) :
  nth_error (l ++ [m]) (List.length (l ++ [m]) - 1) = Some m.
Proof.
  rewrite length_app. simpl.
  replace (List.length l + 1 - 1)%nat with (List.length l) by lia.
  rewrite nth_error_app2 by lia.
  now rewrite Nat.sub_diag.
Qed.

Lemma largo_agregado (l : list Mensaje) (m : Mensaje) :
  Nat.eqb (List.length (l ++ [m])) 0 = false.
Proof.
  rewrite length_app. simpl. apply Nat.eqb_neq. lia.
Qed.

(** [prev.find(p)] is truthy exactly when some element satisfies [p]. *)
Lemma find_existsb {A : Type} (p : A -> bool) (l : list A) :
  match find p l with Some _ => true | None => false end = existsb p l.
Proof.
  induction l as [|x l IH]; simpl; [reflexivity|].
  now destruct (p x).
Qed.

(** What the effect does with a [CAMBIO_ESTADO] message. *)
Lemma applyEvent_cambio (m : Mensaje) (w : Mundo) :
  tipo m = "CAMBIO_ESTADO" ->
  let w' := applyEvent m w in
  archivos w' = filter (fun a => negb (id_eqb (id a) (id (archivo m)))) (archivos w)
  /\ pendientes (stats w') = Z.max 0 (pendientes (stats w) - 1)
  /\ procesados (stats w') =
       procesados (stats w) + (if esEstadoAprobado (archivo m) then 1 else 0)
  /\ rechazados (stats w') =
       rechazados (stats w) + (if esEstadoAprobado (archivo m) then 0 else 1)
  /\ modalData w' = modalData w
  /\ efectos w' = efectos w.
Proof.
  intros Ht. unfold applyEvent, efectoMensajes, agregarMensaje. simpl.
  rewrite largo_agregado, ultimo_agregado, Ht. simpl.
  unfold esEstadoAprobado.
  destruct (estado (archivo m)) as [e|]; [destruct (String.eqb e "APROBADO")|];
    simpl; repeat split; lia.
Qed.

(** What the effect does with a [NUEVO_ARCHIVO] message: the list is guarded
    against a second copy of the id, the counter is not. *)
Lemma applyEvent_nuevo (m : Mensaje) (w : Mundo) :
  tipo m = "NUEVO_ARCHIVO" ->
  let w' := applyEvent m w in
  archivos w' =
    (if existsb (fun a => id_eqb (id a) (id (archivo m))) (archivos w)
     then archivos w else archivos w ++ [archivo m])
  /\ stats w' = mkStats (pendientes (stats w) + 1) (procesados (stats w))
                        (rechazados (stats w)).
Proof.
  intros Ht. unfold applyEvent, efectoMensajes, agregarMensaje. simpl.
  rewrite largo_agregado, ultimo_agregado, Ht. simpl. split; [|reflexivity].
  rewrite <- find_existsb. now destruct (find _ (archivos w)).
Qed.

Lemma applyCommandResult_efecto (a : Archivo) (aprobado : bool)
    (coment : option string) (w : Mundo) :
  let w' := applyCommandResult a aprobado coment w in
  archivos w' = filter (fun x => negb (id_eqb (id x) (id a))) (archivos w)
  /\ stats w' = stats w
  /\ modalData w' = None
  /\ efectos w' = efectos w ++ [Red (ApiAprobar (id a) aprobado coment)].
Proof. simpl. repeat split. Qed.

Lemma filter_sin_id (i : Id) (l : list Archivo) :
  existsb (fun a => id_eqb (id a) i)
          (filter (fun a => negb (id_eqb (id a) i)) l) = false.
Proof.
  induction l as [|a l IH]; simpl; [reflexivity|].
  destruct (id_eqb (id a) i) eqn:E; simpl; [exact IH|].
  now rewrite E, IH.
Qed.

Lemma filter_dos_veces (i : Id) (l : list Archivo) :
  filter (fun a => negb (id_eqb (id a) i))
         (filter (fun a => negb (id_eqb (id a) i)) l)
  = filter (fun a => negb (id_eqb (id a) i)) l.
Proof.
  induction l as [|a l IH]; simpl; [reflexivity|].
  destruct (id_eqb (id a) i) eqn:E; simpl; [exact IH|].
  now rewrite E, IH.
Qed.

(** Appending frames changes the log and nothing else. *)
Lemma agregarVarios_campos (ms : list Mensaje) (w : Mundo) :
  mensajes (agregarVarios ms w) = mensajes w ++ ms
  /\ archivos (agregarVarios ms w) = archivos w
  /\ stats (agregarVarios ms w) = stats w
  /\ modalData (agregarVarios ms w) = modalData w
  /\ efectos (agregarVarios ms w) = efectos w.
Proof.
  revert w. induction ms as [|m ms IH]; intros w.
  - cbn. rewrite app_nil_r. repeat split.
  - change (agregarVarios (m :: ms) w) with (agregarVarios ms (agregarMensaje m w)).
    destruct (IH (agregarMensaje m w)) as (H1 & H2 & H3 & H4 & H5).
    rewrite H1, H2, H3, H4, H5. cbn. rewrite <- app_assoc. repeat split.
Qed.

(** A render after a batch is the effect on the last frame of the batch,
    the earlier frames being in the log already. *)
Lemma entregarLote_snoc (ms : list Mensaje) (m : Mensaje) (w : Mundo) :
  entregarLote (ms ++ [m]) w = applyEvent m (agregarVarios ms w).
Proof.
  unfold entregarLote. destruct (ms ++ [m]) as [|x l] eqn:E.
  - destruct ms; discriminate.
  - rewrite <- E. unfold agregarVarios. rewrite fold_left_app. reflexivity.
Qed.

(** One store operation that refers to file [i] with status [aprob]: a run
    of the effect adds one to the counter of that status, however many
    frames were appended before it; a render without new frames and a
    command success add nothing; the other terminal counter does not move. *)
Lemma aplicar_refiere (i : Id) (aprob : bool) (o : Op) (w : Mundo) :
  refiere i aprob o = true ->
  let k := if correEfecto o then 1 else 0 in
  procesados (stats (aplicar o w)) =
    procesados (stats w) + (if aprob then k else 0)
  /\ rechazados (stats (aplicar o w)) =
    rechazados (stats w) + (if aprob then 0 else k).
Proof.
  destruct o as [[|m0 ms0]|a ap c]; cbn [refiere aplicar correEfecto]; intros H.
  - cbn. destruct aprob; split; lia.
  - assert (Hne : m0 :: ms0 <> []) by discriminate.
    destruct (exists_last Hne) as (ms & m & E). rewrite E in *.
    rewrite forallb_app in H. apply andb_prop in H as [_ H].
    cbn [forallb] in H. rewrite andb_true_r in H. unfold cambioDe in H.
    apply andb_prop in H as [H Hs]. apply andb_prop in H as [Ht _].
    apply String.eqb_eq in Ht. apply Bool.eqb_prop in Hs.
    rewrite entregarLote_snoc.
    destruct (applyEvent_cambio m (agregarVarios ms w) Ht) as (_ & _ & Hp & Hr & _).
    destruct (agregarVarios_campos ms w) as (_ & _ & Hst & _).
    rewrite Hp, Hr, Hst, Hs.
    destruct aprob; split; lia.
  - destruct (applyCommandResult_efecto a ap c w) as (_ & Hs & _).
    rewrite Hs. destruct aprob; split; lia.
Qed.

(** ** C1: duplicate delivery of a terminal transition *)

(** C1, as stated, fails: after the snapshot [[archivo1]], two deliveries of
    the same [CAMBIO_ESTADO]/[APROBADO] event for id 1 leave [procesados] at
    2.  The second event finds the id already absent from the list and
    still increments the counter. *)
Lemma C1_duplicate_event_counts_twice :
  let w1 := applyEvent aprobado1 mundo1 in
  let w2 := applyEvent aprobado1 w1 in
  existsb (fun a => id_eqb (id a) (IdNum 1)) (archivos w1) = false
  /\ procesados (stats w1) = procesados (stats mundo1) + 1
  /\ procesados (stats w2) = procesados (stats mundo1) + 2
  /\ procesados (stats w2) <> procesados (stats mundo1) + 1.
Proof. vm_compute. repeat split; discriminate. Qed.

(** C1, amended: in a sequence of renders and command successes that all
    refer to the same file id with the same terminal status (every frame
    appended before a render is a [CAMBIO_ESTADO] for that id and status),
    every run of the effect adds one to the counter of that status,
    whether or not the id is still listed and however many frames were
    appended before that render, and a command success adds nothing: the
    counter grows by the number of runs of the effect, that is by the
    number of renders that found new frames, and the other terminal counter
    is unchanged. *)
Theorem C1_counter_grows_by_number_of_effect_runs
    (i : Id) (aprob : bool) (ops : list Op) (w : Mundo) :
  forallb (refiere i aprob) ops = true ->
  let n := Z.of_nat (List.length (filter correEfecto ops)) in
  procesados (stats (correr ops w)) =
    procesados (stats w) + (if aprob then n else 0)
  /\ rechazados (stats (correr ops w)) =
    rechazados (stats w) + (if aprob then 0 else n).
Proof.
  revert w. induction ops as [|o ops IH]; intros w H.
  - simpl. destruct aprob; split; lia.
  - simpl in H. apply andb_prop in H as [Ho Hops].
    specialize (IH (aplicar o w) Hops).
    destruct (aplicar_refiere i aprob o w Ho) as [Hp Hr].
    cbv zeta in IH, Hp, Hr. destruct IH as [IHp IHr].
    change (correr (o :: ops) w) with (correr ops (aplicar o w)).
    cbv zeta. rewrite IHp, IHr, Hp, Hr.
    cbn [filter]. destruct (correEfecto o); cbn [List.length];
      destruct aprob; split; lia.
Qed.

(** The amended statement at a run with three frames for id 1: two of them
    appended before one render, then a command success, then the third
    frame with a render of its own.  The effect runs twice and [procesados]
    grows by two. *)
Lemma C1_effect_runs_witness :
  let ops := [OpLote [aprobado1; aprobado1]; OpCommandOk archivo1 true None;
              OpLote [aprobado1]] in
  forallb (refiere (IdNum 1) true) ops = true
  /\ procesados (stats (correr ops mundo1)) = procesados (stats mundo1) + 2.
Proof.
  split.
  - reflexivity.
  - exact (proj1 (C1_counter_grows_by_number_of_effect_runs (IdNum 1) true
             [OpLote [aprobado1; aprobado1]; OpCommandOk archivo1 true None;
              OpLote [aprobado1]]
             mundo1 eq_refl)).
Defined.

(** ** C2: [NUEVO_ARCHIVO] for an id that is already listed *)

(** C2 at Scenario A: the snapshot returns the single file with id 1, then
    the channel delivers [NUEVO_ARCHIVO] for id 1.  The list still has
    exactly one entry, and the pending counter is 2, not 1: the update of
    the list is guarded by the search for the id, the update of the counter
    is not. *)
Theorem C2_duplicate_nuevo_archivo_raises_pending :
  let w := applyEvent (nuevoArchivo archivo1) (loadSnapshot [archivo1] mundo0) in
  archivos w = [archivo1]
  /\ pendientes (stats (loadSnapshot [archivo1] mundo0)) = 1
  /\ pendientes (stats w) = 2.
Proof. vm_compute. repeat split. Qed.

(** The same at every state: a [NUEVO_ARCHIVO] whose id is listed leaves the
    list as it is and adds one to [pendientes]. *)
Lemma nuevo_archivo_repetido (m : Mensaje) (w : Mundo) :
  tipo m = "NUEVO_ARCHIVO" ->
  existsb (fun a => id_eqb (id a) (id (archivo m))) (archivos w) = true ->
  archivos (applyEvent m w) = archivos w
  /\ pendientes (stats (applyEvent m w)) = pendientes (stats w) + 1.
Proof.
  intros Ht Hin. destruct (applyEvent_nuevo m w Ht) as [Ha Hs].
  cbv zeta in Ha, Hs. rewrite Ha, Hs, Hin. split; reflexivity.
Qed.

(** The part of C2 about a new id: the file is appended and [pendientes]
    grows by exactly one. *)
Lemma nuevo_archivo_nuevo (m : Mensaje) (w : Mundo) :
  tipo m = "NUEVO_ARCHIVO" ->
  existsb (fun a => id_eqb (id a) (id (archivo m))) (archivos w) = false ->
  archivos (applyEvent m w) = archivos w ++ [archivo m]
  /\ pendientes (stats (applyEvent m w)) = pendientes (stats w) + 1.
Proof.
  intros Ht Hin. destruct (applyEvent_nuevo m w Ht) as [Ha Hs].
  cbv zeta in Ha, Hs. rewrite Ha, Hs, Hin. split; reflexivity.
Qed.

(** ** C3: a command success followed by its push event *)

(** C3, as stated, fails: with id 1 listed, the approve success removes the
    file but leaves [procesados] where it was, and the [CAMBIO_ESTADO] event
    that follows is not a no-op, since it is the one that moves the
    counters. *)
Lemma C3_success_does_not_count :
  let w2 := applyCommandResult archivo1 true None mundo1 in
  let w3 := applyEvent aprobado1 w2 in
  existsb (fun a => id_eqb (id a) (IdNum 1)) (archivos mundo1) = true
  /\ procesados (stats (applyEvent aprobado1 mundo1)) = procesados (stats mundo1) + 1
  /\ procesados (stats w2) <> procesados (stats mundo1) + 1
  /\ stats w3 <> stats w2.
Proof. vm_compute. repeat split; discriminate. Qed.

(** C3, amended: a command success for file [a] removes every entry with
    that id from the list at once, closes the confirmation step and leaves
    the three counters unchanged; the [CAMBIO_ESTADO] event for the same id
    that arrives later leaves the list unchanged and performs the counter
    update (pending minus one, floored at 0; one added to the counter of the
    carried status).  So after an approve success and its
    [CAMBIO_ESTADO]/[APROBADO] event the id is not listed and [procesados]
    has grown by exactly one. *)
Theorem C3_success_then_event (a : Archivo) (aprobado : bool)
    (coment : option string) (m : Mensaje) (w : Mundo) :
  tipo m = "CAMBIO_ESTADO" ->
  id (archivo m) = id a ->
  let w1 := applyCommandResult a aprobado coment w in
  let w2 := applyEvent m w1 in
  existsb (fun x => id_eqb (id x) (id a)) (archivos w1) = false
  /\ stats w1 = stats w
  /\ modalData w1 = None
  /\ archivos w2 = archivos w1
  /\ pendientes (stats w2) = Z.max 0 (pendientes (stats w) - 1)
  /\ procesados (stats w2) =
       procesados (stats w) + (if esEstadoAprobado (archivo m) then 1 else 0)
  /\ rechazados (stats w2) =
       rechazados (stats w) + (if esEstadoAprobado (archivo m) then 0 else 1).
Proof.
  intros Ht Hid w1 w2.
  destruct (applyCommandResult_efecto a aprobado coment w) as (Ha & Hs & Hm & _).
  destruct (applyEvent_cambio m w1 Ht) as (Ha2 & Hpe & Hpr & Hre & _).
  fold w1 in Ha, Hs, Hm. fold w2 in Ha2, Hpe, Hpr, Hre.
  rewrite Hs in Hpe, Hpr, Hre. rewrite Hid in Ha2.
  repeat split; try assumption.
  - rewrite Ha. apply filter_sin_id.
  - rewrite Ha2, Ha. apply filter_dos_veces.
Qed.

(** Scenario B through the amended statement: id 1 is listed, the approve
    success is applied, then the event arrives; [procesados] is 1. *)
Lemma C3_success_then_event_witness :
  tipo aprobado1 = "CAMBIO_ESTADO"
  /\ id (archivo aprobado1) = id archivo1
  /\ archivos (applyEvent aprobado1 (applyCommandResult archivo1 true None mundo1))
     = archivos (applyCommandResult archivo1 true None mundo1)
  /\ procesados (stats (applyEvent aprobado1
                          (applyCommandResult archivo1 true None mundo1))) = 1.
Proof.
  pose proof (C3_success_then_event archivo1 true None aprobado1 mundo1
                eq_refl eq_refl) as H.
  cbv zeta in H. destruct H as (_ & _ & _ & Ha & _ & Hp & _).
  split; [reflexivity | split; [reflexivity | split; [exact Ha | exact Hp]]].
Defined.

(** ** C4: a snapshot that is a list *)

(** C4: when [obtenerPendientes] resolves with a list of N records, the
    list of files becomes exactly that list, [pendientes] becomes N, and
    [procesados] and [rechazados] keep the values they had before. *)
Theorem C4_snapshot_replaces_list_and_keeps_terminal_counters
    (data : list Archivo) (w : Mundo) :
  let w' := cargarArchivos (Resuelve (Array data)) w in
  archivos w' = data
  /\ pendientes (stats w') = Z.of_nat (List.length data)
  /\ procesados (stats w') = procesados (stats w)
  /\ rechazados (stats w') = rechazados (stats w).
Proof. cbn. repeat split. Qed.

(** ** C10: a snapshot that is not a list *)

(** C10: when [obtenerPendientes] resolves with something that is not a
    list, the list of files becomes empty and the three counters keep their
    values; there is a state from which the pending counter then differs
    from the number of listed files. *)
Theorem C10_non_list_snapshot_empties_list_only :
  (forall w : Mundo,
     let w' := cargarArchivos (Resuelve NoArray) w in
     archivos w' = [] /\ stats w' = stats w)
  /\ (exists w : Mundo,
        let w' := cargarArchivos (Resuelve NoArray) w in
        pendientes (stats w') <> Z.of_nat (List.length (archivos w'))).
Proof.
  split.
  - intros w. cbn. split; reflexivity.
  - exists mundo1. vm_compute. discriminate.
Qed.

(** ** C5: critical files cannot be approved *)

Section Criticos.

Variable toLowerCase : string -> string.

(** The chain of [||] in the callback is a search through the keywords. *)
Lemma patronCritico_palabras (e : string) :
  patronCritico toLowerCase e
  = existsb (fun k => includes (toLowerCase e) k) palabrasCriticas.
Proof.
  unfold patronCritico, palabrasCriticas. cbn [existsb].
  rewrite orb_false_r. now rewrite !orb_assoc.
Qed.

Lemma condicionCritica_esErrorCritico (a : Archivo) :
  condicionCritica toLowerCase a -> esErrorCritico toLowerCase a = true.
Proof.
  unfold esErrorCritico. intros [H | [H | (es & e & k & He & Hin & Hk & Hi)]].
  - now rewrite H.
  - now rewrite H.
  - destruct (js_not_num (num_registros a) || js_es_cero (num_registros a));
      [reflexivity|].
    rewrite He.
    assert (Hex : existsb (patronCritico toLowerCase) es = true).
    { apply existsb_exists. exists e. split; [exact Hin|].
      rewrite patronCritico_palabras. apply existsb_exists.
      exists k. now split. }
    now rewrite Hex.
Qed.

(** C5: a file whose record count is absent or zero, or one of whose error
    texts contains a critical keyword once lower-cased, is classified
    critical whatever its other fields are; in its row the approve button
    is disabled, so a click on it changes nothing, and the reject button
    is enabled and opens the rejection dialog for that file.  The row is
    the one rendered for the file whenever the list is shown. *)
Theorem C5_critical_file_only_rejectable
    (a : Archivo) (l : list Archivo) (w : Mundo) :
  condicionCritica toLowerCase a ->
  esErrorCritico toLowerCase a = true
  /\ aprobar_disabled (fila toLowerCase a) = true
  /\ rechazar_disabled (fila toLowerCase a) = false
  /\ clickAprobar (fila toLowerCase a) w = w
  /\ modalData (clickRechazar (fila toLowerCase a) w)
     = Some (mkModalData a "rechazar")
  /\ (In a l ->
      exists filas,
        ArchivosPendientes toLowerCase l false = Lista filas
        /\ In (fila toLowerCase a) filas).
Proof.
  intros H. pose proof (condicionCritica_esErrorCritico a H) as Hc.
  split; [exact Hc|].
  split; [exact Hc|].
  split; [reflexivity|].
  split; [unfold clickAprobar, fila; cbn; now rewrite Hc|].
  split; [reflexivity|].
  intros Hin. exists (map (fila toLowerCase) l). split.
  - unfold ArchivosPendientes. destruct l as [|x l']; [destruct Hin|reflexivity].
  - apply (in_map (fila toLowerCase) l a Hin).
Qed.

End Criticos.

(** C5 on two files: one with 12 records and the error text
    "Archivo CORRUPTO", one without a record count. *)
Lemma C5_critical_file_witness :
  let a := mkArchivo (IdNum 7) "x.xml" "XML" None (Some 12) None
             (Some ["Linea 3 ignorada"; "Archivo CORRUPTO"]) None in
  condicionCritica asciiToLowerCase a
  /\ aprobar_disabled (fila asciiToLowerCase a) = true
  /\ rechazar_disabled (fila asciiToLowerCase a) = false.
Proof.
  assert (H : condicionCritica asciiToLowerCase
                (mkArchivo (IdNum 7) "x.xml" "XML" None (Some 12) None
                   (Some ["Linea 3 ignorada"; "Archivo CORRUPTO"]) None)).
  { right. right.
    exists ["Linea 3 ignorada"; "Archivo CORRUPTO"], "Archivo CORRUPTO", "corrupto".
    split; [reflexivity|]. split; [simpl; auto|].
    split; [simpl; auto|reflexivity]. }
  split; [exact H|].
  pose proof (C5_critical_file_only_rejectable asciiToLowerCase _ [] mundo0 H)
    as (_ & Hd & Hr & _).
  split; [exact Hd | exact Hr].
Defined.

(** ** C6: a rejection needs a comment *)

Lemma nuevos_app (w w' : Mundo) (l : list Efecto) :
  efectos w' = efectos w ++ l -> nuevos w w' = l.
Proof.
  intros H. unfold nuevos. rewrite H. rewrite skipn_app, Nat.sub_diag.
  rewrite skipn_all. reflexivity.
Qed.

(** The effects of [handleConfirmarAccion]: the REST call first, and no
    other REST call after it. *)
Lemma handleConfirmarAccion_efectos (a : Archivo) (aprobado : bool)
    (coment : option string) (r : Respuesta unit) (w : Mundo) :
  exists resto,
    efectos (handleConfirmarAccion a aprobado coment r w)
    = efectos w ++ Red (ApiAprobar (id a) aprobado coment) :: resto
    /\ forall c, ~ In (Red c) resto.
Proof.
  destruct r as [u|e]; cbn.
  - exists []. split; [reflexivity | intros c []].
  - destruct (status_es (status e) 401); cbn; rewrite <- !app_assoc; cbn;
      (eexists; split; [reflexivity|]; intros c [H|[H|[]]]; discriminate).
Qed.

Section Confirmacion.

Variable trim : string -> string.

(** C6: when the dialog is a rejection and the comment is empty once
    trimmed, [handleSubmit] shows the validation message and does nothing
    else: no REST call is issued and [modalData] keeps the dialog open.
    A REST call issued by [handleSubmit] is the approve/reject command,
    and it is issued exactly when the dialog is an approval (whatever the
    comment, sent as [null] when empty) or the trimmed comment is not
    empty. *)
Theorem C6_rejection_needs_comment
    (a : Archivo) (tipoAccion : string) (r : Respuesta unit) (w : Mundo) :
  let w' := handleSubmit trim a tipoAccion r w in
  let orden := ApiAprobar (id a) (String.eqb tipoAccion "aprobar")
                 (js_o_null (trim (comentarios w))) in
  (tipoAccion <> "aprobar" -> trim (comentarios w) = "" ->
     w' = emitir (Alert "Por favor, ingresa un comentario explicando el motivo del rechazo") w
     /\ modalData w' = modalData w
     /\ forall c, ~ In (Red c) (nuevos w w'))
  /\ (forall c, In (Red c) (nuevos w w') ->
        (tipoAccion = "aprobar" \/ trim (comentarios w) <> "") /\ c = orden)
  /\ (tipoAccion = "aprobar" \/ trim (comentarios w) <> "" ->
        In (Red orden) (nuevos w w')).
Proof.
  intros w' orden. subst w' orden. unfold handleSubmit.
  destruct (String.eqb_spec tipoAccion "aprobar") as [Ht|Ht];
    destruct (String.eqb_spec (trim (comentarios w)) "") as [Hc|Hc]; cbn [negb andb].
  4: {
    destruct (handleConfirmarAccion_efectos a false
                (js_o_null (trim (comentarios w))) r (setEnviando true w))
      as (resto & He & Hno).
    cbn [setEnviando efectos] in He.
    split; [intros _ Hc'; contradiction|].
    rewrite (nuevos_app w (setEnviando false _) _ He). split.
    - intros c [H|H]; [inversion H; subst; split; [now right | reflexivity]|].
      exfalso. exact (Hno c H).
    - intros _. now left. }
  3: {
    split.
    - intros _ _. split; [reflexivity|]. split; [reflexivity|].
      rewrite (nuevos_app w (emitir _ w) [Alert _] eq_refl).
      intros c [H|[]]. discriminate.
    - rewrite (nuevos_app w (emitir _ w) [Alert _] eq_refl). split.
      + intros c [H|[]]. discriminate.
      + intros [H|H]; contradiction. }
  all: destruct (handleConfirmarAccion_efectos a true
                (js_o_null (trim (comentarios w))) r (setEnviando true w))
      as (resto & He & Hno);
    cbn [setEnviando efectos] in He;
    (split; [intros Ht'; contradiction|]);
    rewrite (nuevos_app w (setEnviando false _) _ He); split;
    [ intros c [H|H];
      [inversion H; subst; split; [now left | reflexivity]
      | exfalso; exact (Hno c H)]
    | intros _; now left ].
Qed.

End Confirmacion.

(** C6 on a rejection of file 1 whose comment is three spaces: the alert is
    the only effect and the dialog stays open. *)
Lemma C6_rejection_needs_comment_witness :
  let w := setComentarios "   " (handleRechazar archivo1 mundo1) in
  "rechazar" <> "aprobar"
  /\ asciiTrim (comentarios w) = ""
  /\ nuevos w (handleSubmit asciiTrim archivo1 "rechazar" (Resuelve tt) w)
     = [Alert "Por favor, ingresa un comentario explicando el motivo del rechazo"]
  /\ modalData (handleSubmit asciiTrim archivo1 "rechazar" (Resuelve tt) w)
     = Some (mkModalData archivo1 "rechazar").
Proof.
  assert (Hn : "rechazar" <> "aprobar") by discriminate.
  pose proof (C6_rejection_needs_comment asciiTrim archivo1 "rechazar" (Resuelve tt)
                (setComentarios "   " (handleRechazar archivo1 mundo1))) as H.
  cbv zeta in H. destruct H as (H & _).
  destruct (H Hn eq_refl) as (Hw & Hm & _).
  split; [exact Hn|]. split; [reflexivity|]. split.
  - cbv zeta. rewrite Hw. reflexivity.
  - cbv zeta. rewrite Hm. reflexivity.
Defined.

(** ** C7: an expired token *)

(** The teardown clears both storage keys and calls [onLogout] when the prop
    was given. *)
Lemma handleLogoutSesion_efecto (w : Mundo) :
  token (handleLogoutSesion w) = None
  /\ usuarioGuardado (handleLogoutSesion w) = None
  /\ efectos (handleLogoutSesion w)
     = efectos w ++ (if onLogout w then [OnLogout] else [])
  /\ onLogout (handleLogoutSesion w) = onLogout w
  /\ tokenExpirando (handleLogoutSesion w) = tokenExpirando w.
Proof.
  unfold handleLogoutSesion. cbn. destruct (onLogout w) eqn:E; cbn;
    rewrite ?app_nil_r, ?E; repeat split; reflexivity.
Qed.

(** C7, as stated, fails: the stored token says [exp = 100] s and the clock
    says 200000 ms, so the remaining lifetime is negative; [verificarToken]
    logs out and then calls [authAPI.me()] all the same. *)
Lemma C7_expired_token_still_calls_server :
  let w' := verificarToken decodificarFijo (Resuelve tt) 200000 mundo0 in
  100 * 1000 - 200000 <= 0
  /\ token mundo0 = Some "h.p.s"
  /\ token w' = None
  /\ In (Red ApiMe) (nuevos mundo0 w').
Proof.
  vm_compute. repeat split; try discriminate. right. left. reflexivity.
Qed.

Section Sesion.

Variable decodificar : string -> Payload.

(** Whenever a non-empty token is stored, [verificarToken] issues the
    identity call, whatever the expiry says. *)
Lemma verificarToken_llama_siempre
    (me : Respuesta unit) (ahora : Z) (w : Mundo) (tok : string) :
  token w = Some tok -> tok <> "" ->
  In (Red ApiMe) (efectos (verificarToken decodificar me ahora w)).
Proof.
  intros Ht Hne. unfold verificarToken. rewrite Ht.
  apply String.eqb_neq in Hne. rewrite Hne.
  set (w1 := verificarExpiracionToken decodificar tok ahora w).
  assert (H : In (Red ApiMe) (efectos (emitir (Red ApiMe) w1))).
  { cbn. apply in_or_app. right. now left. }
  destruct me as [u|e]; [exact H|].
  destruct (status_es (status e) 401); [|exact H].
  destruct (handleLogoutSesion_efecto (emitir (Red ApiMe) w1)) as (_ & _ & He & _).
  rewrite He. apply in_or_app. now left.
Qed.

(** C7, amended: when the stored token's expiry is in the past,
    [verificarToken] performs the logout teardown at once, before the
    identity call and whatever its answer will be: both storage keys are
    cleared, [onLogout] is called if given, and the expiring-soon flag is
    off.  The identity call is then issued all the same, and it is the
    only REST call of the check. *)
Theorem C7_expired_token_logs_out_before_server_call
    (me : Respuesta unit) (ahora : Z) (w : Mundo) (tok : string) (exp : Z) :
  token w = Some tok -> tok <> "" ->
  decodificar tok = PayloadExp exp ->
  exp * 1000 - ahora <= 0 ->
  let w' := verificarToken decodificar me ahora w in
  token w' = None
  /\ usuarioGuardado w' = None
  /\ tokenExpirando w' = false
  /\ exists resto,
       nuevos w w' = (if onLogout w then [OnLogout] else []) ++ Red ApiMe :: resto
       /\ forall c, ~ In (Red c) resto.
Proof.
  intros Ht Hne Hd Hexp. unfold verificarToken. rewrite Ht.
  apply String.eqb_neq in Hne. rewrite Hne.
  unfold verificarExpiracionToken. rewrite Hd.
  assert (Hle : (exp * 1000 - ahora <=? 0) = true) by (apply Z.leb_le; lia).
  assert (Hlt : (0 <? exp * 1000 - ahora) = false) by (apply Z.ltb_ge; lia).
  rewrite Hle, Hlt. cbn [andb].
  set (w0 := setTokenExpirando false w).
  destruct (handleLogoutSesion_efecto w0) as (H1 & H2 & H3 & H4 & H5).
  set (w1 := handleLogoutSesion w0) in *.
  change (efectos w0) with (efectos w) in H3.
  change (onLogout w0) with (onLogout w) in H3, H4.
  change (tokenExpirando w0) with false in H5.
  destruct me as [u|e]; [|destruct (status_es (status e) 401)].
  - cbv zeta. cbn [emitir token usuarioGuardado tokenExpirando].
    repeat (split; [assumption|]).
    exists []. split; [|intros c []].
    apply nuevos_app. cbn [emitir efectos]. rewrite H3, <- app_assoc. reflexivity.
  - cbv zeta.
    destruct (handleLogoutSesion_efecto (emitir (Red ApiMe) w1))
      as (G1 & G2 & G3 & _ & G5).
    rewrite G1, G2, G5. cbn [emitir tokenExpirando].
    repeat (split; [assumption || reflexivity|]).
    exists (if onLogout w then [OnLogout] else []). split.
    + apply nuevos_app. rewrite G3. cbn [emitir efectos onLogout].
      rewrite H3, H4, <- !app_assoc. reflexivity.
    + intros c Hin. destruct (onLogout w); [destruct Hin as [H|[]]; discriminate|destruct Hin].
  - cbv zeta. cbn [emitir token usuarioGuardado tokenExpirando].
    repeat (split; [assumption|]).
    exists []. split; [|intros c []].
    apply nuevos_app. cbn [emitir efectos]. rewrite H3, <- app_assoc. reflexivity.
Qed.

End Sesion.

(** C7 amended, on the token of the counterexample: the logout comes first,
    the identity call second. *)
Lemma C7_expired_token_witness :
  token mundo0 = Some "h.p.s"
  /\ "h.p.s" <> ""
  /\ decodificarFijo "h.p.s" = PayloadExp 100
  /\ 100 * 1000 - 200000 <= 0
  /\ token (verificarToken decodificarFijo (Resuelve tt) 200000 mundo0) = None.
Proof.
  assert (Hne : "h.p.s" <> "") by discriminate.
  assert (Hle : 100 * 1000 - 200000 <= 0) by lia.
  pose proof (C7_expired_token_logs_out_before_server_call decodificarFijo
                (Resuelve tt) 200000 mundo0 "h.p.s" 100 eq_refl Hne eq_refl Hle) as H.
  cbv zeta in H. destruct H as (H & _).
  split; [reflexivity|]. split; [exact Hne|]. split; [reflexivity|].
  split; [exact Hle | exact H].
Defined.

(** ** C8: a command that fails with a stale reference *)

(** C8: when the approve/reject command is rejected with status 401, the
    list of files and the three counters are the ones from before the call,
    the confirmation step is closed, the operator is told that the list
    will be refreshed, and [cargarArchivos] is handed to [setTimeout] with a
    delay of 1000 ms; the command is the only REST call.  When the timer
    fires, the snapshot load is what runs. *)
Theorem C8_stale_failure_schedules_reload
    (a : Archivo) (aprobado : bool) (coment : option string)
    (e : ErrorHttp) (w : Mundo) :
  status e = Some 401 ->
  let w' := handleConfirmarAccion a aprobado coment (Rechaza e) w in
  archivos w' = archivos w
  /\ stats w' = stats w
  /\ modalData w' = None
  /\ nuevos w w' =
       [ Red (ApiAprobar (id a) aprobado coment);
         Alert "El archivo ya no se encuentra disponible (posible reinicio del servidor). Se actualizará la lista.";
         SetTimeout CbCargarArchivos 1000 ]
  /\ (forall r w0, ejecutar CbCargarArchivos r w0 = cargarArchivos r w0).
Proof.
  intros Hs. unfold handleConfirmarAccion. rewrite Hs. cbn [status_es Z.eqb Pos.eqb].
  cbv zeta. cbn [setModalData setLoading emitir archivos stats modalData].
  repeat (split; [reflexivity|]). split; [|reflexivity].
  apply nuevos_app. cbn. rewrite <- !app_assoc. reflexivity.
Qed.

(** The same holds for every failure of the command, with the alert text of
    that failure: nothing is removed or counted, and the reload is
    scheduled. *)
Lemma handleConfirmarAccion_falla (a : Archivo) (aprobado : bool)
    (coment : option string) (e : ErrorHttp) (w : Mundo) :
  let w' := handleConfirmarAccion a aprobado coment (Rechaza e) w in
  archivos w' = archivos w
  /\ stats w' = stats w
  /\ modalData w' = None
  /\ exists aviso,
       nuevos w w' = [ Red (ApiAprobar (id a) aprobado coment); Alert aviso;
                       SetTimeout CbCargarArchivos 1000 ].
Proof.
  unfold handleConfirmarAccion. cbv zeta.
  destruct (status_es (status e) 401);
    cbn [setModalData setLoading emitir archivos stats modalData];
    repeat (split; [reflexivity|]); eexists;
    apply nuevos_app; cbn; rewrite <- !app_assoc; reflexivity.
Qed.

(** Scenario C: the approve command for file 1 fails with status 401. *)
Lemma C8_stale_failure_witness :
  let e := mkErrorHttp (Some 401) None "Request failed with status code 401" in
  status e = Some 401
  /\ archivos (handleConfirmarAccion archivo1 true None (Rechaza e) mundo1) = [archivo1]
  /\ pendientes (stats (handleConfirmarAccion archivo1 true None (Rechaza e) mundo1)) = 1.
Proof.
  pose proof (C8_stale_failure_schedules_reload archivo1 true None
                (mkErrorHttp (Some 401) None "Request failed with status code 401")
                mundo1 eq_refl) as H.
  cbv zeta in H. destruct H as (Ha & Hs & _).
  split; [reflexivity|]. split.
  - cbv zeta. rewrite Ha. reflexivity.
  - cbv zeta. rewrite Hs. reflexivity.
Defined.

(** ** C9: frames that do not parse *)

Section Canal.

Variable JSON_parse : string -> option Mensaje.

Lemma onmessage_malformado (data : string) (w : Mundo) :
  JSON_parse data = None ->
  onmessage JSON_parse data w = emitir (ConsoleError "Error parseando mensaje WS:") w
  /\ recibir JSON_parse data w = onmessage JSON_parse data w.
Proof.
  intros H. unfold recibir, onmessage. rewrite H. split; reflexivity.
Qed.

Lemma onmessage_parseado (data : string) (d : Mensaje) (w : Mundo) :
  JSON_parse data = Some d ->
  mensajes (onmessage JSON_parse data w) = mensajes w ++ [d]
  /\ conectado (onmessage JSON_parse data w) = conectado w.
Proof.
  intros H. unfold onmessage. rewrite H. split; reflexivity.
Qed.

(** The current hook, the copy with [try]/[catch], does what C9 says: for
    every run of inbound frames, the event log afterwards is the
    log before followed by the frames that parse, in arrival order; the
    frames that do not parse add nothing to it.  The connection flag is
    not changed by any frame.  A frame that does not parse only writes an
    error line to the console: the handler returns normally with every
    other part of the state as it was, and the dashboard effect does not
    run for it. *)
Theorem C9_malformed_frames_are_dropped (frames : list string) (w : Mundo) :
  let w' := recibirTodos JSON_parse frames w in
  mensajes w' = mensajes w ++ parseados JSON_parse frames
  /\ conectado w' = conectado w
  /\ (forall data w0,
        JSON_parse data = None ->
        onmessage JSON_parse data w0
          = emitir (ConsoleError "Error parseando mensaje WS:") w0
        /\ mensajes (onmessage JSON_parse data w0) = mensajes w0
        /\ recibir JSON_parse data w0 = onmessage JSON_parse data w0).
Proof.
  cbv zeta. split; [|split].
  - revert w. induction frames as [|data frames IH]; intros w.
    + cbn. now rewrite app_nil_r.
    + cbn [recibirTodos fold_left parseados flat_map].
      change (fold_left _ frames ?x) with (recibirTodos JSON_parse frames x).
      rewrite IH. fold (parseados JSON_parse frames).
      unfold onmessage. destruct (JSON_parse data) as [d|]; cbn.
      * now rewrite <- app_assoc.
      * reflexivity.
  - revert w. induction frames as [|data frames IH]; intros w; [reflexivity|].
    cbn [recibirTodos fold_left].
    change (fold_left _ frames ?x) with (recibirTodos JSON_parse frames x).
    rewrite IH. unfold onmessage. destruct (JSON_parse data); reflexivity.
  - intros data w0 H. destruct (onmessage_malformado data w0 H) as [Ho Hr].
    split; [exact Ho|]. split; [now rewrite Ho | exact Hr].
Qed.

(** In the earlier version of the hook a frame that does not parse is not
    logged by the hook: the exception leaves the handler, with the state
    untouched. *)
Lemma onmessage_sin_try_malformado (data : string) (w : Mundo) :
  JSON_parse data = None -> onmessage_sin_try JSON_parse data w = inr w.
Proof. intros H. unfold onmessage_sin_try. now rewrite H. Qed.

End Canal.

(** The current hook on three frames, the second of which is malformed. *)
Lemma C9_malformed_frames_witness :
  parseMuestra "{oops" = None
  /\ mensajes (recibirTodos parseMuestra ["{nuevo 1}"; "{oops"; "{aprobado 1}"] mundo0)
     = [nuevoArchivo archivo1; aprobado1]
  /\ mensajes (onmessage parseMuestra "{oops" mundo1) = mensajes mundo1.
Proof.
  pose proof (C9_malformed_frames_are_dropped parseMuestra
                ["{nuevo 1}"; "{oops"; "{aprobado 1}"] mundo0) as H.
  cbv zeta in H. destruct H as (Hm & _ & Hd).
  destruct (Hd "{oops" mundo1 eq_refl) as (_ & Hk & _).
  split; [reflexivity|]. split; [rewrite Hm; reflexivity | exact Hk].
Defined.

Section CanalAnterior.

Variable JSON_parse : string -> option Mensaje.

(** C9 fails on the earlier copy of the hook, where [JSON.parse] is called
    outside any [try]: for a frame that does not parse the exception leaves
    the [onmessage] handler (the handler does not return normally), and the
    hook has written nothing to the console, the state at the throw being
    the state before the frame.  The log and the connection flag are
    untouched there too.  The current hook, on the same frame, returns
    normally after one line on the error console. *)
Theorem C9_earlier_hook_lets_the_exception_escape (data : string) (w : Mundo) :
  JSON_parse data = None ->
  onmessage_sin_try JSON_parse data w = inr w
  /\ (forall w', onmessage_sin_try JSON_parse data w <> inl w')
  /\ onmessage JSON_parse data w
     = emitir (ConsoleError "Error parseando mensaje WS:") w.
Proof.
  intros H. unfold onmessage_sin_try, onmessage. rewrite H.
  split; [reflexivity|]. split; [intros w'; discriminate | reflexivity].
Qed.

End CanalAnterior.

(** The frame [{oops] on the earlier hook. *)
Lemma C9_earlier_hook_witness :
  parseMuestra "{oops" = None
  /\ onmessage_sin_try parseMuestra "{oops" mundo1 = inr mundo1.
Proof.
  split; [reflexivity|].
  exact (proj1 (C9_earlier_hook_lets_the_exception_escape parseMuestra
                  "{oops" mundo1 eq_refl)).
Defined.

(** * Further properties of the page *)

(** ** The store under any run of its three triggers *)

(** The effect after an append, with the lookup of the last message done. *)
Lemma applyEvent_eq (m : Mensaje) (w : Mundo) :
  applyEvent m w =
    let w1 := agregarMensaje m w in
    if String.eqb (tipo m) "NUEVO_ARCHIVO" then
      w1 |> setArchivos (fun prev =>
              match find (fun a => id_eqb (id a) (id (archivo m))) prev with
              | Some _ => prev
              | None => prev ++ [archivo m]
              end)
         |> setStats (fun prev =>
              mkStats (pendientes prev + 1) (procesados prev) (rechazados prev))
    else if String.eqb (tipo m) "CAMBIO_ESTADO" then
      w1 |> setArchivos (filter (fun a => negb (id_eqb (id a) (id (archivo m)))))
         |> setStats (fun prev =>
              mkStats (Z.max 0 (pendientes prev - 1))
                (if esEstadoAprobado (archivo m) then procesados prev + 1
                 else procesados prev)
                (if negb (esEstadoAprobado (archivo m)) then rechazados prev + 1
                 else rechazados prev))
    else w1.
Proof.
  unfold applyEvent, efectoMensajes.
  cbn [agregarMensaje setMensajes mensajes].
  rewrite largo_agregado, ultimo_agregado. reflexivity.
Qed.

(** The counters after one step, in terms of the counters before. *)
Lemma paso_stats (p : Paso) (w : Mundo) :
  (pendientes (stats (paso p w)) = pendientes (stats w) + 1
   \/ pendientes (stats (paso p w)) = Z.max 0 (pendientes (stats w) - 1)
   \/ pendientes (stats (paso p w)) = pendientes (stats w)
   \/ exists data : list Archivo,
        pendientes (stats (paso p w)) = Z.of_nat (List.length data))
  /\ procesados (stats (paso p w)) =
       procesados (stats w) + (if esCambio true p then 1 else 0)
  /\ rechazados (stats (paso p w)) =
       rechazados (stats w) + (if esCambio false p then 1 else 0).
Proof.
  destruct p as [m|a ap c r|r]; cbn [paso esCambio].
  - rewrite applyEvent_eq. cbv zeta.
    destruct (String.eqb (tipo m) "NUEVO_ARCHIVO") eqn:En.
    + apply String.eqb_eq in En. rewrite En. cbn. repeat split; lia.
    + destruct (String.eqb (tipo m) "CAMBIO_ESTADO") eqn:Ec; cbn.
      * destruct (esEstadoAprobado (archivo m)); cbn; repeat split; lia.
      * repeat split; lia.
  - destruct r as [u|e]; cbn; [|destruct (status_es (status e) 401); cbn];
      repeat split; lia.
  - destruct r as [[data|]|e]; cbn; repeat split; try lia.
    right. right. right. exists data. reflexivity.
Qed.

(** X1: The pending counter never goes below zero: from a non-negative value,
    no run of push events, settled commands and settled snapshot loads makes
    it negative. *)
Theorem pendientes_stays_non_negative (ps : list Paso) (w : Mundo) :
  0 <= pendientes (stats w) -> 0 <= pendientes (stats (pasos ps w)).
Proof.
  revert w. induction ps as [|p ps IH]; intros w H; [exact H|].
  change (pasos (p :: ps) w) with (pasos ps (paso p w)).
  apply IH. destruct (paso_stats p w) as ([E|[E|[E|[data E]]]] & _); rewrite E; lia.
Qed.

Lemma pendientes_stays_non_negative_witness :
  0 <= pendientes (stats mundo0)
  /\ 0 <= pendientes (stats (pasos [PasoEvento aprobado1; PasoEvento aprobado1] mundo0)).
Proof.
  assert (H : 0 <= pendientes (stats mundo0)) by (cbn; lia).
  split; [exact H|].
  exact (pendientes_stays_non_negative [PasoEvento aprobado1; PasoEvento aprobado1] mundo0 H).
Defined.

(** The terminal counters after one delivery. *)
Lemma entregar_stats (e : Entrega) (w : Mundo) :
  procesados (stats (entregar e w)) =
    procesados (stats w) + (if efectoCambio true e then 1 else 0)
  /\ rechazados (stats (entregar e w)) =
    rechazados (stats w) + (if efectoCambio false e then 1 else 0).
Proof.
  destruct e as [[|m0 ms0]|a ap c r|r].
  - cbn. split; lia.
  - assert (Hne : m0 :: ms0 <> []) by discriminate.
    destruct (exists_last Hne) as (ms & m & E). rewrite E.
    cbn [entregar efectoCambio]. unfold ultimoDe. rewrite ultimo_agregado.
    rewrite entregarLote_snoc.
    destruct (paso_stats (PasoEvento m) (agregarVarios ms w)) as (_ & Hp & Hr).
    destruct (agregarVarios_campos ms w) as (_ & _ & Hst & _).
    cbn [paso esCambio] in Hp, Hr. rewrite Hst in Hp, Hr. split; assumption.
  - destruct (paso_stats (PasoComando a ap c r) w) as (_ & Hp & Hr).
    cbn [paso esCambio] in Hp, Hr. cbn [entregar efectoCambio]. split; assumption.
  - destruct (paso_stats (PasoCarga r) w) as (_ & Hp & Hr).
    cbn [paso esCambio] in Hp, Hr. cbn [entregar efectoCambio]. split; assumption.
Qed.

(** X2: The two terminal counters move when the effect runs on a
    [CAMBIO_ESTADO] and on nothing else.  After any run of renders (each
    after the frames appended before it), settled commands and snapshot
    loads, [procesados] has grown by the number of renders whose last
    appended frame is a [CAMBIO_ESTADO] carrying [APROBADO], and
    [rechazados] by the number of those whose last frame is a
    [CAMBIO_ESTADO] carrying anything else.  Frames that are not the last
    of their batch, snapshot loads, commands (whatever their outcome),
    [NUEVO_ARCHIVO] and messages of other kinds leave them alone, so
    neither counter ever decreases. *)
Theorem terminal_counters_count_effect_runs (es : list Entrega) (w : Mundo) :
  procesados (stats (entregas es w)) = procesados (stats w) + cuentaEfectos true es
  /\ rechazados (stats (entregas es w)) = rechazados (stats w) + cuentaEfectos false es
  /\ procesados (stats w) <= procesados (stats (entregas es w))
  /\ rechazados (stats w) <= rechazados (stats (entregas es w)).
Proof.
  assert (H : procesados (stats (entregas es w))
              = procesados (stats w) + cuentaEfectos true es
              /\ rechazados (stats (entregas es w))
                 = rechazados (stats w) + cuentaEfectos false es).
  { revert w. induction es as [|e es IH]; intros w.
    - unfold cuentaEfectos. cbn. split; lia.
    - change (entregas (e :: es) w) with (entregas es (entregar e w)).
      destruct (IH (entregar e w)) as [Hp Hr].
      destruct (entregar_stats e w) as [Ep Er].
      rewrite Hp, Hr, Ep, Er. unfold cuentaEfectos. cbn [filter].
      destruct (efectoCambio true e), (efectoCambio false e);
        cbn [List.length]; split; lia. }
  destruct H as [Hp Hr]. repeat split; try assumption.
  - rewrite Hp. unfold cuentaEfectos. lia.
  - rewrite Hr. unfold cuentaEfectos. lia.
Qed.

(** The list of files after one step. *)
Lemma paso_archivos (p : Paso) (w : Mundo) :
  archivos (paso p w) = archivos w
  \/ (exists i, archivos (paso p w)
                = filter (fun a => negb (id_eqb (id a) i)) (archivos w))
  \/ (exists a, listado (id a) w = false /\ archivos (paso p w) = archivos w ++ [a])
  \/ archivos (paso p w) = []
  \/ (exists data, p = PasoCarga (Resuelve (Array data))
                   /\ archivos (paso p w) = data).
Proof.
  destruct p as [m|a ap c r|r]; cbn [paso].
  - rewrite applyEvent_eq. cbv zeta.
    destruct (String.eqb (tipo m) "NUEVO_ARCHIVO") eqn:En.
    + cbn. pose proof (find_existsb (fun a => id_eqb (id a) (id (archivo m)))
                         (archivos w)) as Hf.
      destruct (find _ (archivos w)).
      * now left.
      * right. right. left. exists (archivo m). unfold listado. now rewrite <- Hf.
    + destruct (String.eqb (tipo m) "CAMBIO_ESTADO"); cbn.
      * right. left. now exists (id (archivo m)).
      * now left.
  - destruct r as [u|e]; cbn.
    + right. left. now exists (id a).
    + destruct (status_es (status e) 401); cbn; now left.
  - destruct r as [[data|]|e]; cbn.
    + right. right. right. right. now exists data.
    + right. right. right. now left.
    + now left.
Qed.

Lemma no_listado_no_in (i : Id) (l : list Archivo) :
  existsb (fun a => id_eqb (id a) i) l = false -> ~ In i (ids l).
Proof.
  induction l as [|a l IH]; simpl; intros H; [tauto|].
  apply orb_false_iff in H as [Ha Hl]. intros [E|Hin].
  - rewrite E, id_eqb_refl in Ha. discriminate.
  - exact (IH Hl Hin).
Qed.

Lemma in_ids_filter (f : Archivo -> bool) (i : Id) (l : list Archivo) :
  In i (ids (filter f l)) -> In i (ids l).
Proof.
  unfold ids. rewrite !in_map_iff. intros (a & E & Hin).
  apply filter_In in Hin as [Hin _]. now exists a.
Qed.

Lemma NoDup_ids_filter (f : Archivo -> bool) (l : list Archivo) :
  NoDup (ids l) -> NoDup (ids (filter f l)).
Proof.
  induction l as [|a l IH]; simpl; intros H; [constructor|].
  inversion H as [|x xs Hn Hd]; subst.
  destruct (f a); simpl; [|now apply IH].
  constructor; [|now apply IH].
  intros Hin. apply Hn. exact (in_ids_filter f (id a) l Hin).
Qed.

Lemma NoDup_ids_snoc (a : Archivo) (l : list Archivo) :
  NoDup (ids l) -> ~ In (id a) (ids l) -> NoDup (ids (l ++ [a])).
Proof.
  induction l as [|x l IH]; simpl; intros H Hn.
  - constructor; [tauto | constructor].
  - inversion H as [|y ys Hx Hd]; subst. constructor.
    + unfold ids. rewrite map_app, in_app_iff. simpl. intros [Hin|[E|[]]].
      * exact (Hx Hin).
      * apply Hn. now left.
    + apply IH; [exact Hd|]. intros Hin. apply Hn. now right.
Qed.

(** X3: The ids of the listed files stay pairwise distinct: from a list without
    a repeated id, no run of push events, settled commands and snapshot
    loads produces one, provided each snapshot that resolves with a list
    has distinct ids itself. *)
Theorem listed_ids_stay_distinct (ps : list Paso) (w : Mundo) :
  NoDup (ids (archivos w)) ->
  Forall pasoSinRepetidos ps ->
  NoDup (ids (archivos (pasos ps w))).
Proof.
  revert w. induction ps as [|p ps IH]; intros w Hw Hps; [exact Hw|].
  change (pasos (p :: ps) w) with (pasos ps (paso p w)).
  inversion Hps as [|q qs Hp Hrest]; subst.
  apply IH; [|exact Hrest].
  destruct (paso_archivos p w) as [E|[(i & E)|[(a & Hl & E)|[E|(data & Ep & E)]]]];
    rewrite E.
  - exact Hw.
  - now apply NoDup_ids_filter.
  - apply NoDup_ids_snoc; [exact Hw|]. now apply no_listado_no_in.
  - constructor.
  - subst p. exact Hp.
Qed.

(** A list with one file, then the file announced again, a second file
    announced, the first one approved, and a snapshot of both. *)
Lemma listed_ids_stay_distinct_witness :
  let a2 := mkArchivo (IdStr "b-2") "b.xml" "XML" None (Some 3) None None None in
  let ps := [PasoEvento (nuevoArchivo archivo1); PasoEvento (nuevoArchivo a2);
             PasoEvento aprobado1; PasoCarga (Resuelve (Array [archivo1; a2]))] in
  NoDup (ids (archivos mundo1))
  /\ Forall pasoSinRepetidos ps
  /\ NoDup (ids (archivos (pasos ps mundo1))).
Proof.
  cbv zeta.
  assert (H1 : NoDup (ids (archivos mundo1))).
  { cbn. constructor; [intros []|constructor]. }
  assert (H2 : Forall pasoSinRepetidos
                 [PasoEvento (nuevoArchivo archivo1);
                  PasoEvento (nuevoArchivo
                    (mkArchivo (IdStr "b-2") "b.xml" "XML" None (Some 3) None None None));
                  PasoEvento aprobado1;
                  PasoCarga (Resuelve (Array [archivo1;
                    mkArchivo (IdStr "b-2") "b.xml" "XML" None (Some 3) None None None]))]).
  { repeat constructor; cbn; try tauto. intros [H|[]]. discriminate. }
  split; [exact H1|]. split; [exact H2|].
  exact (listed_ids_stay_distinct _ mundo1 H1 H2).
Defined.

Lemma filter_no_in (i : Id) (l : list Archivo) :
  ~ In i (ids l) -> filter (fun a => negb (id_eqb (id a) i)) l = l.
Proof.
  induction l as [|a l IH]; simpl; intros H; [reflexivity|].
  destruct (id_eqb (id a) i) eqn:E.
  - apply id_eqb_eq in E. exfalso. apply H. now left.
  - simpl. f_equal. apply IH. intros Hin. apply H. now right.
Qed.

(** Removing an id that is listed once shortens the list by one. *)
Lemma filter_listado_length (i : Id) (l : list Archivo) :
  NoDup (ids l) ->
  existsb (fun a => id_eqb (id a) i) l = true ->
  (List.length (filter (fun a => negb (id_eqb (id a) i)) l) + 1 = List.length l)%nat.
Proof.
  induction l as [|a l IH]; simpl; intros Hd H; [discriminate|].
  inversion Hd as [|x xs Hn Hd']; subst.
  destruct (id_eqb (id a) i) eqn:E; simpl.
  - apply id_eqb_eq in E. subst i. rewrite (filter_no_in (id a) l Hn). lia.
  - simpl in H. rewrite (IH Hd' H). reflexivity.
Qed.

(** X4: With distinct ids in the list and the pending counter equal to the
    number of listed files, an event the list has room for keeps them
    equal: a [NUEVO_ARCHIVO] for an id that is not listed, a
    [CAMBIO_ESTADO] for an id that is. *)
Theorem fresh_event_keeps_pending_equal_to_list (m : Mensaje) (w : Mundo) :
  NoDup (ids (archivos w)) ->
  cuadra w ->
  eventoFresco m w ->
  cuadra (applyEvent m w).
Proof.
  unfold cuadra, eventoFresco, listado. intros Hd Hc [[Ht Hl]|[Ht Hl]].
  - destruct (applyEvent_nuevo m w Ht) as [Ha Hs]. cbv zeta in Ha, Hs.
    rewrite Ha, Hs, Hl, length_app. cbn. lia.
  - destruct (applyEvent_cambio m w Ht) as (Ha & Hp & _). cbv zeta in Ha, Hp.
    rewrite Ha, Hp, Hc.
    pose proof (filter_listado_length (id (archivo m)) (archivos w) Hd Hl). lia.
Qed.

Lemma fresh_event_witness :
  NoDup (ids (archivos mundo1))
  /\ cuadra mundo1
  /\ eventoFresco aprobado1 mundo1
  /\ cuadra (applyEvent aprobado1 mundo1).
Proof.
  assert (H1 : NoDup (ids (archivos mundo1))).
  { cbn. constructor; [intros []|constructor]. }
  assert (H2 : cuadra mundo1) by reflexivity.
  assert (H3 : eventoFresco aprobado1 mundo1) by (right; split; reflexivity).
  split; [exact H1|]. split; [exact H2|]. split; [exact H3|].
  exact (fresh_event_keeps_pending_equal_to_list aprobado1 mundo1 H1 H2 H3).
Defined.

(** X5: Between a command success for a listed file and the push event of that
    file, the pending counter is one more than the number of listed files;
    once the event has arrived the two agree again. *)
Theorem command_success_then_event_restores_pending
    (a : Archivo) (aprobado : bool) (coment : option string)
    (m : Mensaje) (w : Mundo) :
  NoDup (ids (archivos w)) ->
  cuadra w ->
  listado (id a) w = true ->
  tipo m = "CAMBIO_ESTADO" ->
  id (archivo m) = id a ->
  let w1 := applyCommandResult a aprobado coment w in
  pendientes (stats w1) = Z.of_nat (List.length (archivos w1)) + 1
  /\ cuadra (applyEvent m w1).
Proof.
  intros Hd Hc Hl Ht Hid w1. unfold cuadra, listado in *.
  destruct (applyCommandResult_efecto a aprobado coment w) as (Ha & Hs & _).
  fold w1 in Ha, Hs.
  pose proof (filter_listado_length (id a) (archivos w) Hd Hl) as Hlen.
  destruct (applyEvent_cambio m w1 Ht) as (Ha2 & Hp2 & _). cbv zeta in Ha2, Hp2.
  split.
  - rewrite Hs, Ha, Hc. lia.
  - rewrite Ha2, Hp2, Hid, Hs, Ha, filter_dos_veces, Hc. lia.
Qed.

Lemma command_success_then_event_witness :
  NoDup (ids (archivos mundo1))
  /\ cuadra mundo1
  /\ listado (id archivo1) mundo1 = true
  /\ tipo aprobado1 = "CAMBIO_ESTADO"
  /\ id (archivo aprobado1) = id archivo1
  /\ cuadra (applyEvent aprobado1 (applyCommandResult archivo1 true None mundo1)).
Proof.
  assert (H1 : NoDup (ids (archivos mundo1))).
  { cbn. constructor; [intros []|constructor]. }
  assert (H2 : cuadra mundo1) by reflexivity.
  pose proof (command_success_then_event_restores_pending archivo1 true None
                aprobado1 mundo1 H1 H2 eq_refl eq_refl eq_refl) as H.
  cbv zeta in H. destruct H as [_ H].
  split; [exact H1|]. split; [exact H2|].
  split; [reflexivity|]. split; [reflexivity|]. split; [reflexivity|exact H].
Defined.

(** X6: A message whose kind is neither [NUEVO_ARCHIVO] nor [CAMBIO_ESTADO] is
    kept in the log and changes nothing else: the list, the counters, the
    dialog and the trace are as before. *)
Theorem unknown_message_kind_is_ignored (m : Mensaje) (w : Mundo) :
  tipo m <> "NUEVO_ARCHIVO" ->
  tipo m <> "CAMBIO_ESTADO" ->
  applyEvent m w = agregarMensaje m w
  /\ archivos (applyEvent m w) = archivos w
  /\ stats (applyEvent m w) = stats w
  /\ mensajes (applyEvent m w) = mensajes w ++ [m].
Proof.
  intros Hn Hc. rewrite applyEvent_eq. cbv zeta.
  apply String.eqb_neq in Hn. apply String.eqb_neq in Hc. rewrite Hn, Hc.
  repeat split.
Qed.

Lemma unknown_message_kind_witness :
  let m := mkMensaje "PING" archivo1 in
  tipo m <> "NUEVO_ARCHIVO"
  /\ tipo m <> "CAMBIO_ESTADO"
  /\ stats (applyEvent m mundo1) = stats mundo1.
Proof.
  cbv zeta.
  assert (H1 : tipo (mkMensaje "PING" archivo1) <> "NUEVO_ARCHIVO") by discriminate.
  assert (H2 : tipo (mkMensaje "PING" archivo1) <> "CAMBIO_ESTADO") by discriminate.
  split; [exact H1|]. split; [exact H2|].
  exact (proj1 (proj2 (proj2 (unknown_message_kind_is_ignored _ mundo1 H1 H2)))).
Defined.

(** ** The snapshot load and the reload after a failed command *)

(** X7: Whatever [obtenerPendientes] answers, [cargarArchivos] issues that one
    REST call, ends with [loading] off, schedules no timer and shows no
    alert.  When the call is rejected (with any status) the list and the
    counters are the ones from before and the only other effect is a line
    on the error console. *)
Theorem cargarArchivos_settles (r : Respuesta Datos) (w : Mundo) :
  let w' := cargarArchivos r w in
  loading w' = false
  /\ modalData w' = modalData w
  /\ (exists resto,
        nuevos w w' = Red ApiObtenerPendientes :: resto
        /\ forall e, In e resto -> exists msg, e = ConsoleError msg)
  /\ match r with
     | Rechaza _ =>
         archivos w' = archivos w /\ stats w' = stats w
         /\ nuevos w w' = [Red ApiObtenerPendientes;
                           ConsoleError "Error cargando archivos:"]
     | Resuelve _ => procesados (stats w') = procesados (stats w)
                     /\ rechazados (stats w') = rechazados (stats w)
     end.
Proof.
  cbv zeta. destruct r as [[data|]|e]; cbn [cargarArchivos].
  - repeat split; try reflexivity.
    exists []. split; [|intros e []].
    apply nuevos_app. reflexivity.
  - repeat split; try reflexivity.
    exists []. split; [|intros e []].
    apply nuevos_app. reflexivity.
  - assert (E : nuevos w (cargarArchivos (Rechaza e) w)
                = [Red ApiObtenerPendientes; ConsoleError "Error cargando archivos:"]).
    { apply nuevos_app. cbn. now rewrite <- app_assoc. }
    repeat split; try reflexivity; try exact E.
    exists [ConsoleError "Error cargando archivos:"]. split; [exact E|].
    intros x [H|[]]. now exists "Error cargando archivos:".
Qed.

Lemma cargarArchivos_lista (data : list Archivo) (w : Mundo) :
  loading (cargarArchivos (Resuelve (Array data)) w) = false
  /\ archivos (cargarArchivos (Resuelve (Array data)) w) = data
  /\ stats (cargarArchivos (Resuelve (Array data)) w)
     = mkStats (Z.of_nat (List.length data)) (procesados (stats w))
               (rechazados (stats w))
  /\ modalData (cargarArchivos (Resuelve (Array data)) w) = modalData w.
Proof. repeat split. Qed.

(** X8: After a failed command the list is hidden behind the loading notice
    until the reload scheduled by the failure handler has run.  When that
    reload resolves with a list, the page shows exactly that list, the
    pending counter is its length, the dialog is closed and the terminal
    counters are still the ones from before the command. *)
Theorem failed_command_then_reload
    (toLowerCase : string -> string)
    (a : Archivo) (aprobado : bool) (coment : option string)
    (e : ErrorHttp) (data : list Archivo) (w : Mundo) :
  let w1 := handleConfirmarAccion a aprobado coment (Rechaza e) w in
  let w2 := ejecutar CbCargarArchivos (Resuelve (Array data)) w1 in
  In (SetTimeout CbCargarArchivos 1000) (nuevos w w1)
  /\ ArchivosPendientes toLowerCase (archivos w1) (loading w1) = Cargando
  /\ loading w2 = false
  /\ archivos w2 = data
  /\ cuadra w2
  /\ modalData w2 = None
  /\ procesados (stats w2) = procesados (stats w)
  /\ rechazados (stats w2) = rechazados (stats w).
Proof.
  cbv zeta.
  destruct (handleConfirmarAccion_falla a aprobado coment e w)
    as (Ha & Hs & Hm & aviso & Hn).
  cbv zeta in Ha, Hs, Hm, Hn.
  split; [rewrite Hn; cbn; tauto|].
  assert (Hl : loading (handleConfirmarAccion a aprobado coment (Rechaza e) w) = true).
  { unfold handleConfirmarAccion. destruct (status_es (status e) 401); reflexivity. }
  split; [unfold ArchivosPendientes; now rewrite Hl|].
  destruct (cargarArchivos_lista data
              (handleConfirmarAccion a aprobado coment (Rechaza e) w))
    as (Gl & Ga & Gs & Gm).
  unfold ejecutar, cuadra. rewrite Gl, Ga, Gs, Gm, Hm, Hs. repeat split.
Qed.

(** ** The token check *)

Section Sesion2.

Variable decodificar : string -> Payload.

(** X9: With no token in storage (none, or the empty text) the check is the
    logout teardown and nothing else: no REST call is issued. *)
Theorem verificarToken_without_token_only_logs_out
    (me : Respuesta unit) (ahora : Z) (w : Mundo) :
  tokenGuardado w = None ->
  let w' := verificarToken decodificar me ahora w in
  w' = handleLogoutSesion w
  /\ token w' = None
  /\ usuarioGuardado w' = None
  /\ nuevos w w' = (if onLogout w then [OnLogout] else []).
Proof.
  intros H. cbv zeta.
  assert (E : verificarToken decodificar me ahora w = handleLogoutSesion w).
  { unfold verificarToken. unfold tokenGuardado in H.
    destruct (token w) as [tok|]; [|reflexivity].
    destruct (String.eqb tok ""); [reflexivity|discriminate]. }
  rewrite E. destruct (handleLogoutSesion_efecto w) as (H1 & H2 & H3 & _).
  repeat split; try assumption. now apply nuevos_app.
Qed.

Lemma verificarExpiracionToken_vigente (tok : string) (ahora : Z) (w : Mundo) :
  vigente (decodificar tok) ahora ->
  let w' := verificarExpiracionToken decodificar tok ahora w in
  token w' = token w
  /\ usuarioGuardado w' = usuarioGuardado w
  /\ onLogout w' = onLogout w
  /\ (exists l, efectos w' = efectos w ++ l /\ ~ In OnLogout l
                /\ forall c, ~ In (Red c) l).
Proof.
  unfold vigente, verificarExpiracionToken. intros H.
  destruct (decodificar tok) as [| |exp]; cbv zeta.
  - repeat split. exists [ConsoleError "Error decodificando token:"].
    repeat split; [intros [E|[]]; discriminate | intros c [E|[]]; discriminate].
  - repeat split. exists []. rewrite app_nil_r. repeat split; intros; tauto.
  - assert (E : (exp * 1000 - ahora <=? 0) = false) by (apply Z.leb_gt; lia).
    rewrite E. repeat split. exists []. cbn. rewrite app_nil_r.
    repeat split; intros; tauto.
Qed.

(** X10: When a token is stored and the local check finds nothing against it
    (positive remaining lifetime, or no readable expiry at all), the answer
    of the identity call decides: a rejection with status 401 logs out;
    every other outcome, a network error or a 5xx included, leaves both
    storage keys in place and does not call [onLogout]. *)
Theorem verificarToken_server_decides
    (me : Respuesta unit) (ahora : Z) (w : Mundo) (tok : string) :
  token w = Some tok -> tok <> "" ->
  vigente (decodificar tok) ahora ->
  let w' := verificarToken decodificar me ahora w in
  In (Red ApiMe) (nuevos w w')
  /\ if rechaza401 me
     then token w' = None /\ usuarioGuardado w' = None
          /\ (onLogout w = true -> In OnLogout (nuevos w w'))
     else token w' = Some tok /\ usuarioGuardado w' = usuarioGuardado w
          /\ ~ In OnLogout (nuevos w w').
Proof.
  intros Ht Hne Hv. cbv zeta. unfold verificarToken. rewrite Ht.
  apply String.eqb_neq in Hne. rewrite Hne.
  destruct (verificarExpiracionToken_vigente tok ahora w Hv)
    as (H1 & H2 & H3 & l & He & Hno & Hnr).
  cbv zeta in H1, H2, H3, He.
  set (w1 := verificarExpiracionToken decodificar tok ahora w) in *.
  assert (E2 : efectos (emitir (Red ApiMe) w1) = efectos w ++ (l ++ [Red ApiMe])).
  { cbn. now rewrite He, <- app_assoc. }
  destruct me as [u|e]; cbn [rechaza401].
  - rewrite (nuevos_app w _ _ E2). cbn [emitir token usuarioGuardado].
    split; [apply in_or_app; right; now left|].
    rewrite H1, H2, Ht. repeat split.
    intros Hin. apply in_app_or in Hin as [Hin|[Hin|[]]]; [tauto|discriminate].
  - destruct (status_es (status e) 401).
    + destruct (handleLogoutSesion_efecto (emitir (Red ApiMe) w1))
        as (G1 & G2 & G3 & _).
      rewrite E2, <- app_assoc in G3.
      rewrite (nuevos_app w _ _ G3).
      split; [rewrite !in_app_iff; cbn [In]; tauto|].
      repeat split; try assumption.
      intros Ho. cbn [emitir onLogout]. rewrite H3, Ho.
      rewrite !in_app_iff. cbn [In]. tauto.
    + rewrite (nuevos_app w _ _ E2). cbn [emitir token usuarioGuardado].
      split; [apply in_or_app; right; now left|].
      rewrite H1, H2, Ht. repeat split.
      intros Hin. apply in_app_or in Hin as [Hin|[Hin|[]]]; [tauto|discriminate].
Qed.

(** X11: The expiring-soon flag after the local check of a token that carries
    an expiry: on exactly when the remaining lifetime is positive and below
    ten minutes. *)
Theorem tokenExpirando_within_ten_minutes
    (tok : string) (exp ahora : Z) (w : Mundo) :
  decodificar tok = PayloadExp exp ->
  (tokenExpirando (verificarExpiracionToken decodificar tok ahora w) = true
   <-> 0 < exp * 1000 - ahora < 600000).
Proof.
  intros Hd. unfold verificarExpiracionToken. rewrite Hd. cbv zeta.
  assert (E : forall b x : bool, tokenExpirando
                (if b then handleLogoutSesion (setTokenExpirando x w)
                 else setTokenExpirando x w) = x).
  { intros [|] x; [|reflexivity].
    destruct (handleLogoutSesion_efecto (setTokenExpirando x w)) as (_ & _ & _ & _ & G).
    exact G. }
  rewrite E. rewrite andb_true_iff, !Z.ltb_lt. lia.
Qed.

End Sesion2.

Lemma verificarToken_without_token_witness :
  tokenGuardado (removeToken mundo0) = None
  /\ nuevos (removeToken mundo0)
       (verificarToken decodificarFijo (Resuelve tt) 0 (removeToken mundo0))
     = [OnLogout].
Proof.
  split; [reflexivity|].
  exact (proj2 (proj2 (proj2
           (verificarToken_without_token_only_logs_out decodificarFijo
              (Resuelve tt) 0 (removeToken mundo0) eq_refl)))).
Defined.

(** A token with 50 seconds left and an identity call that fails with
    status 500: nothing is cleared. *)
Lemma verificarToken_server_decides_witness :
  let me := Rechaza (mkErrorHttp (Some 500) None "Request failed with status code 500") in
  token mundo0 = Some "h.p.s"
  /\ "h.p.s" <> ""
  /\ vigente (decodificarFijo "h.p.s") 50000
  /\ token (verificarToken decodificarFijo me 50000 mundo0) = Some "h.p.s".
Proof.
  cbv zeta.
  assert (Hne : "h.p.s" <> "") by discriminate.
  assert (Hv : vigente (decodificarFijo "h.p.s") 50000) by (cbn; lia).
  pose proof (verificarToken_server_decides decodificarFijo
                (Rechaza (mkErrorHttp (Some 500) None
                            "Request failed with status code 500"))
                50000 mundo0 "h.p.s" eq_refl Hne Hv) as H.
  cbv zeta in H. destruct H as (_ & H & _).
  split; [reflexivity|]. split; [exact Hne|]. split; [exact Hv | exact H].
Defined.

Lemma tokenExpirando_witness :
  decodificarFijo "h.p.s" = PayloadExp 100
  /\ tokenExpirando (verificarExpiracionToken decodificarFijo "h.p.s" 50000 mundo0) = true.
Proof.
  split; [reflexivity|].
  apply (proj2 (tokenExpirando_within_ten_minutes decodificarFijo "h.p.s" 100 50000
                  mundo0 eq_refl)).
  lia.
Defined.

(** ** Rows and the dialog *)

Section Filas.

Variable toLowerCase : string -> string.
Variable trim : string -> string.

(** X12: The approve button of a row is disabled for the files covered by the
    critical condition and for no others: a file with a non-zero record
    count and no error text carrying a keyword can be approved. *)
Theorem approve_disabled_exactly_when_critical (a : Archivo) :
  aprobar_disabled (fila toLowerCase a) = true <-> condicionCritica toLowerCase a.
Proof.
  split; [|apply condicionCritica_esErrorCritico].
  unfold fila, condicionCritica. cbn. unfold esErrorCritico.
  destruct (num_registros a) as [n|]; [|intros _; now left].
  cbn. destruct (Z.eqb_spec n 0) as [->|Hn]; [intros _; right; now left|].
  cbn. destruct (errores a) as [es|]; [|discriminate].
  destruct (existsb (patronCritico toLowerCase) es) eqn:E; [|discriminate].
  intros _. right. right.
  apply existsb_exists in E as (e & Hin & He).
  rewrite patronCritico_palabras in He.
  apply existsb_exists in He as (k & Hk & Hi).
  exists es, e, k. repeat split; assumption.
Qed.

(** X13: With no dialog open, clicking the approve button of a critical file
    and then submitting changes nothing at all: no dialog opens and no
    approve command can leave the page for that file. *)
Theorem critical_file_cannot_be_approved_from_its_row
    (a : Archivo) (r : Respuesta unit) (w : Mundo) :
  condicionCritica toLowerCase a ->
  modalData w = None ->
  submit trim r (clickAprobar (fila toLowerCase a) w) = w.
Proof.
  intros Hc Hm. pose proof (condicionCritica_esErrorCritico toLowerCase a Hc) as E.
  unfold clickAprobar, fila. cbn. rewrite E. unfold submit. now rewrite Hm.
Qed.

(** X14: The comment that travels with an approve/reject command issued by the
    dialog is the trimmed text, or [null]; it is never the empty text, and
    for a rejection it is never [null]. *)
Theorem submitted_comment_is_trimmed_and_not_empty
    (a : Archivo) (tipoAccion : string) (r : Respuesta unit) (w : Mundo)
    (i : Id) (aprobado : bool) (coment : option string) :
  In (Red (ApiAprobar i aprobado coment))
     (nuevos w (handleSubmit trim a tipoAccion r w)) ->
  i = id a
  /\ coment <> Some ""
  /\ (coment = None \/ coment = Some (trim (comentarios w)))
  /\ (aprobado = false -> coment = Some (trim (comentarios w))).
Proof.
  intros Hin. unfold handleSubmit in Hin.
  destruct (String.eqb tipoAccion "aprobar") eqn:Et; cbn [negb andb] in Hin.
  - destruct (handleConfirmarAccion_efectos a true
                (js_o_null (trim (comentarios w))) r (setEnviando true w))
      as (resto & He & Hno).
    cbn [setEnviando efectos] in He.
    rewrite (nuevos_app w (setEnviando false _) _ He) in Hin.
    destruct Hin as [H|H]; [|exfalso; exact (Hno _ H)].
    inversion H; subst. unfold js_o_null.
    destruct (String.eqb_spec (trim (comentarios w)) "") as [E|E].
    + repeat split; try discriminate; auto.
    + repeat split; try discriminate; auto. intros H'. inversion H'. contradiction.
  - destruct (String.eqb_spec (trim (comentarios w)) "") as [E|E].
    + rewrite (nuevos_app w (emitir _ w) [Alert _] eq_refl) in Hin.
      destruct Hin as [H|[]]. discriminate.
    + destruct (handleConfirmarAccion_efectos a false
                  (js_o_null (trim (comentarios w))) r (setEnviando true w))
        as (resto & He & Hno).
      cbn [setEnviando efectos] in He.
      rewrite (nuevos_app w (setEnviando false _) _ He) in Hin.
      destruct Hin as [H|H]; [|exfalso; exact (Hno _ H)].
      inversion H; subst. unfold js_o_null.
      apply String.eqb_neq in E. rewrite E. apply String.eqb_neq in E.
      repeat split; auto. intros H'. inversion H'. contradiction.
Qed.

(** X15: The whole rejection of a listed file: a click on its reject button, a
    comment that is not blank, a submit that the server accepts.  The file
    is no longer listed, the dialog is closed and not busy, the three
    counters are untouched, and the one REST call made is the rejection of
    that file with the trimmed comment. *)
Theorem rejection_round_trip (a : Archivo) (texto : string) (w : Mundo) :
  modalData w = None ->
  trim texto <> "" ->
  let w' := w |> clickRechazar (fila toLowerCase a)
              |> setComentarios texto
              |> submit trim (Resuelve tt) in
  listado (id a) w' = false
  /\ modalData w' = None
  /\ enviando w' = false
  /\ stats w' = stats w
  /\ nuevos w w' = [Red (ApiAprobar (id a) false (Some (trim texto)))].
Proof.
  intros Hm Ht. cbv zeta. unfold clickRechazar, fila, handleRechazar. cbn [rechazar_disabled fila_archivo].
  unfold submit. cbn [setComentarios setModalData modalData md_archivo md_tipo].
  unfold handleSubmit. cbn [comentarios setComentarios setModalData].
  apply String.eqb_neq in Ht. cbn [String.eqb Ascii.eqb Bool.eqb negb andb]. rewrite Ht.
  unfold js_o_null. rewrite Ht.
  split; [unfold listado; cbn; apply filter_sin_id|].
  repeat split. apply nuevos_app. reflexivity.
Qed.

End Filas.

Lemma critical_file_cannot_be_approved_witness :
  let a := mkArchivo (IdNum 9) "vacio.txt" "TXT" None (Some 0) None None None in
  condicionCritica asciiToLowerCase a
  /\ modalData mundo1 = None
  /\ submit asciiTrim (Resuelve tt) (clickAprobar (fila asciiToLowerCase a) mundo1)
     = mundo1.
Proof.
  cbv zeta.
  assert (H : condicionCritica asciiToLowerCase
                (mkArchivo (IdNum 9) "vacio.txt" "TXT" None (Some 0) None None None))
    by (right; left; reflexivity).
  split; [exact H|]. split; [reflexivity|].
  exact (critical_file_cannot_be_approved_from_its_row asciiToLowerCase asciiTrim
           _ (Resuelve tt) mundo1 H eq_refl).
Defined.

(** An approval of file 1 with a blank comment: the command carries [null]. *)
Lemma submitted_comment_witness :
  let w := setComentarios "  " (handleAprobar archivo1 mundo1) in
  In (Red (ApiAprobar (IdNum 1) true None))
     (nuevos w (handleSubmit asciiTrim archivo1 "aprobar" (Resuelve tt) w))
  /\ (None : option string) <> Some "".
Proof.
  cbv zeta.
  assert (H : In (Red (ApiAprobar (IdNum 1) true None))
                (nuevos (setComentarios "  " (handleAprobar archivo1 mundo1))
                   (handleSubmit asciiTrim archivo1 "aprobar" (Resuelve tt)
                      (setComentarios "  " (handleAprobar archivo1 mundo1)))))
    by (left; reflexivity).
  split; [exact H|].
  exact (proj1 (proj2 (submitted_comment_is_trimmed_and_not_empty asciiTrim
                         archivo1 "aprobar" (Resuelve tt) _ _ _ _ H))).
Defined.

Lemma rejection_round_trip_witness :
  modalData mundo1 = None
  /\ asciiTrim " duplicado " <> ""
  /\ nuevos mundo1
       (mundo1 |> clickRechazar (fila asciiToLowerCase archivo1)
               |> setComentarios " duplicado "
               |> submit asciiTrim (Resuelve tt))
     = [Red (ApiAprobar (IdNum 1) false (Some "duplicado"))].
Proof.
  assert (Ht : asciiTrim " duplicado " <> "") by (vm_compute; discriminate).
  pose proof (rejection_round_trip asciiToLowerCase asciiTrim archivo1
                " duplicado " mundo1 eq_refl Ht) as H.
  cbv zeta in H. destruct H as (_ & _ & _ & _ & H).
  split; [reflexivity|]. split; [exact Ht | exact H].
Defined.

(** X16: Every way the dialog closes (cancel, an accepted command, a failed
    command) is followed, at the next opening, by an empty comment box and
    an idle form, whatever was typed before: a comment written for one file
    is never carried over to another. *)
Theorem reopened_dialog_starts_empty
    (a b : Archivo) (aprobado : bool) (coment : option string)
    (r : Respuesta unit) (w : Mundo) :
  comentarios (handleRechazar b (onCancelar w)) = ""
  /\ enviando (handleRechazar b (onCancelar w)) = false
  /\ comentarios (handleAprobar b (handleConfirmarAccion a aprobado coment r w)) = ""
  /\ enviando (handleAprobar b (handleConfirmarAccion a aprobado coment r w)) = false
  /\ archivos (onCancelar w) = archivos w
  /\ stats (onCancelar w) = stats w
  /\ efectos (onCancelar w) = efectos w.
Proof.
  assert (H : forall w0 m, modalData w0 = None ->
                comentarios (setModalData (Some m) w0) = ""
                /\ enviando (setModalData (Some m) w0) = false).
  { intros w0 m E. unfold setModalData. rewrite E. split; reflexivity. }
  assert (Hc : modalData (handleConfirmarAccion a aprobado coment r w) = None).
  { destruct r as [u|e]; [reflexivity|].
    unfold handleConfirmarAccion. destruct (status_es (status e) 401); reflexivity. }
  unfold handleRechazar, handleAprobar.
  destruct (H (onCancelar w) (mkModalData b "rechazar") eq_refl) as [H1 H2].
  destruct (H _ (mkModalData b "aprobar") Hc) as [H3 H4].
  repeat split; assumption.
Qed.

(** ** The socket *)

Section Canal3.

Variable JSON_parse : string -> option Mensaje.

Lemma manejar_mensajes (e : EventoWs) (w : Mundo) :
  exists l, mensajes (manejar JSON_parse e w) = mensajes w ++ l
            /\ conectado (manejar JSON_parse e w) = ultimoEstado [e] (conectado w)
            /\ archivos (manejar JSON_parse e w) = archivos w
            /\ stats (manejar JSON_parse e w) = stats w.
Proof.
  destruct e as [|data|code]; cbn [manejar ultimoEstado].
  - exists []. rewrite app_nil_r. repeat split.
  - unfold onmessage. destruct (JSON_parse data) as [d|].
    + exists [d]. repeat split.
    + exists []. rewrite app_nil_r. repeat split.
  - exists []. rewrite app_nil_r. unfold onclose.
    destruct ((code =? 1008) || (code =? 403)); repeat split.
Qed.

(** X17: Across any run of socket events (open, frames, close) the hook only
    ever appends to the message log, the connection flag ends as the last
    open or close left it, and the hook itself never touches the list of
    files or the counters.  Nothing in the hook reopens a closed socket:
    after a close the flag stays off until an open event arrives. *)
Theorem socket_events_only_append (es : list EventoWs) (w : Mundo) :
  let w' := manejarTodos JSON_parse es w in
  (exists l, mensajes w' = mensajes w ++ l)
  /\ conectado w' = ultimoEstado es (conectado w)
  /\ archivos w' = archivos w
  /\ stats w' = stats w.
Proof.
  cbv zeta. revert w. induction es as [|e es IH]; intros w.
  - cbn. repeat split. exists []. now rewrite app_nil_r.
  - change (manejarTodos JSON_parse (e :: es) w)
      with (manejarTodos JSON_parse es (manejar JSON_parse e w)).
    destruct (IH (manejar JSON_parse e w)) as ((l2 & Hm) & Hc & Ha & Hs).
    destruct (manejar_mensajes e w) as (l1 & Hm1 & Hc1 & Ha1 & Hs1).
    rewrite Hm, Hc, Ha, Hs, Hm1, Hc1, Ha1, Hs1. repeat split.
    + exists (l1 ++ l2). now rewrite app_assoc.
    + destruct e; reflexivity.
Qed.

End Canal3.

(** ** The address of the socket *)

Lemma str_app_assoc (a b c : string) : ((a ++ b) ++ c = a ++ (b ++ c))%string.
Proof. induction a as [|x a IH]; simpl; [reflexivity | now rewrite IH]. Qed.

Lemma str_length_app (a b : string) :
  String.length (a ++ b) = (String.length a + String.length b)%nat.
Proof. induction a as [|x a IH]; simpl; [reflexivity | now rewrite IH]. Qed.

Lemma sinSufijo_eq (suf s : string) :
  sinSufijo suf s =
    if String.eqb s suf then Some EmptyString
    else match s with
         | EmptyString => None
         | String c rest =>
             match sinSufijo suf rest with
             | Some p => Some (String c p)
             | None => None
             end
         end.
Proof. destruct s; reflexivity. Qed.

(** [sinSufijo] takes back what an append put at the end. *)
Lemma sinSufijo_app (suf b : string) : sinSufijo suf (b ++ suf) = Some b.
Proof.
  induction b as [|c b IH]; rewrite sinSufijo_eq.
  - simpl. now rewrite String.eqb_refl.
  - simpl String.append.
    destruct (String.eqb_spec (String c (b ++ suf)) suf) as [E|_].
    + apply (f_equal String.length) in E. simpl in E.
      rewrite str_length_app in E. lia.
    + now rewrite IH.
Qed.

Lemma sinSufijo_some (suf s p : string) :
  sinSufijo suf s = Some p -> s = (p ++ suf)%string.
Proof.
  revert p. induction s as [|c s IH]; intros p; rewrite sinSufijo_eq.
  - destruct (String.eqb_spec "" suf) as [E|_]; [|discriminate].
    intros H. inversion H. now subst.
  - destruct (String.eqb_spec (String c s) suf) as [E|_].
    + intros H. inversion H. now subst.
    + destruct (sinSufijo suf s) as [q|]; [|discriminate].
      intros H. inversion H. simpl. now rewrite (IH q eq_refl).
Qed.

Lemma ultimo_igual (x y : string) (c d : ascii) :
  (x ++ String c "" = y ++ String d "")%string -> c = d.
Proof.
  revert y. induction x as [|a x IH]; intros [|e y] H; simpl in H.
  - now inversion H.
  - inversion H as [[Ha Hy]]. destruct y; discriminate.
  - inversion H as [[Ha Hx]]. destruct x; discriminate.
  - inversion H as [[Ha Hx]]. exact (IH y Hx).
Qed.

(** A text that ends with one character does not end with a suffix whose
    last character is another one. *)
Lemma sinSufijo_otro_final (pre : string) (c d : ascii) (x : string) :
  c <> d -> sinSufijo (pre ++ String d "") (x ++ String c "") = None.
Proof.
  intros Hcd. destruct (sinSufijo _ _) as [p|] eqn:E; [|reflexivity].
  apply sinSufijo_some in E. rewrite <- str_app_assoc in E.
  apply ultimo_igual in E. contradiction.
Qed.

Lemma quitarFinal_app (suf b : string) : quitarFinal suf (b ++ suf) = b.
Proof. unfold quitarFinal. now rewrite sinSufijo_app. Qed.

Lemma limpiarBase_ws_barra (b : string) :
  sinSufijo "/" b = None -> limpiarBase (b ++ "/ws/") = b.
Proof.
  intros Hb. unfold limpiarBase. rewrite sinSufijo_app.
  unfold quitarFinal. now rewrite Hb.
Qed.

Lemma limpiarBase_ws (b : string) :
  sinSufijo "/" b = None -> limpiarBase (b ++ "/ws") = b.
Proof.
  intros Hb. unfold limpiarBase.
  change (b ++ "/ws")%string with (b ++ ("/w" ++ "s"))%string.
  rewrite <- str_app_assoc.
  assert (H : sinSufijo "/ws/" ((b ++ "/w") ++ "s") = None)
    by (apply (sinSufijo_otro_final "/ws" "s" "/"); discriminate).
  rewrite H.
  rewrite str_app_assoc. change ("/w" ++ "s")%string with "/ws".
  rewrite quitarFinal_app. unfold quitarFinal. now rewrite Hb.
Qed.

(** X18: The three spellings of the configured base that the clean-up is meant
    for give the same address: for a base [b] that does not end with a
    slash, [b/ws/] and [b/ws] are both reduced to [b]; so are [b] itself
    and [b/], unless [b] ends with [/ws]. *)
Theorem limpiarBase_spellings (b : string) :
  sinSufijo "/" b = None ->
  limpiarBase (b ++ "/ws/") = b
  /\ limpiarBase (b ++ "/ws") = b
  /\ (sinSufijo "/ws" b = None ->
      limpiarBase b = b /\ limpiarBase (b ++ "/") = b).
Proof.
  intros Hb.
  assert (Hq : quitarFinal "/" b = b) by (unfold quitarFinal; now rewrite Hb).
  split; [|split].
  - now apply limpiarBase_ws_barra.
  - now apply limpiarBase_ws.
  - intros Hws. split.
    + unfold limpiarBase.
      destruct (sinSufijo "/ws/" b) as [p|] eqn:E.
      * apply sinSufijo_some in E.
        change "/ws/" with ("/ws" ++ "/")%string in E.
        rewrite <- str_app_assoc in E. rewrite E, sinSufijo_app in Hb. discriminate.
      * unfold quitarFinal at 2. now rewrite Hws.
    + unfold limpiarBase.
      destruct (sinSufijo "/ws/" (b ++ "/")) as [p|] eqn:E.
      * apply sinSufijo_some in E.
        change "/ws/" with ("/ws" ++ "/")%string in E.
        rewrite <- str_app_assoc in E.
        pose proof (sinSufijo_app "/" b) as H1. rewrite E, sinSufijo_app in H1.
        inversion H1 as [Hp]. rewrite <- Hp, sinSufijo_app in Hws. discriminate.
      * assert (H2 : quitarFinal "/ws" (b ++ "/") = (b ++ "/")%string).
        { unfold quitarFinal.
          assert (H : sinSufijo "/ws" (b ++ "/") = None)
            by (apply (sinSufijo_otro_final "/w" "/" "s"); discriminate).
          now rewrite H. }
        rewrite H2. apply quitarFinal_app.
Qed.

Lemma limpiarBase_spellings_witness :
  sinSufijo "/" "ws://localhost:8000" = None
  /\ limpiarBase "ws://localhost:8000/ws/" = "ws://localhost:8000"
  /\ limpiarBase "ws://localhost:8000/ws" = "ws://localhost:8000".
Proof.
  pose proof (limpiarBase_spellings "ws://localhost:8000" eq_refl) as (H1 & H2 & _).
  split; [reflexivity|]. split; [exact H1 | exact H2].
Defined.

(** X19: The clean-up only ever cuts at the end, and cuts one layer: the
    configured base is the cleaned base followed by one of six endings. *)
Theorem limpiarBase_cuts_a_short_ending (baseUrl : string) :
  exists fin,
    baseUrl = (limpiarBase baseUrl ++ fin)%string
    /\ In fin [""; "/"; "/ws"; "//ws"; "/ws/"; "//ws/"].
Proof.
  unfold limpiarBase.
  assert (Q : forall u, (quitarFinal "/" u = u)
                        \/ u = (quitarFinal "/" u ++ "/")%string).
  { intros u. unfold quitarFinal. destruct (sinSufijo "/" u) as [p|] eqn:E.
    - right. now apply sinSufijo_some. 
    - now left. }
  destruct (sinSufijo "/ws/" baseUrl) as [p|] eqn:E1.
  - apply sinSufijo_some in E1. destruct (Q p) as [Hq|Hq].
    + exists "/ws/". rewrite Hq. split; [exact E1 | cbn; tauto].
    + exists "//ws/". split; [|cbn; tauto].
      rewrite E1. rewrite Hq at 1. now rewrite str_app_assoc.
  - unfold quitarFinal at 2. destruct (sinSufijo "/ws" baseUrl) as [p|] eqn:E2.
    + apply sinSufijo_some in E2. destruct (Q p) as [Hq|Hq].
      * exists "/ws". rewrite Hq. split; [exact E2 | cbn; tauto].
      * exists "//ws". split; [|cbn; tauto].
        rewrite E2. rewrite Hq at 1. now rewrite str_app_assoc.
    + destruct (Q baseUrl) as [Hq|Hq].
      * exists "". rewrite Hq. split; [|cbn; tauto].
        clear. induction baseUrl as [|c s IH]; simpl; [reflexivity | now rewrite <- IH].
      * exists "/". split; [exact Hq | cbn; tauto].
Qed.

(** X20: The hook opens a socket only when a non-empty token is stored, and the
    address it opens is the cleaned base followed by the notification path
    and the token; in particular the addresses for the bases [b/ws/] and
    [b/ws] are the same one. *)
Theorem conectar_address (b tok : string) (w : Mundo) :
  token w = Some tok -> tok <> "" ->
  sinSufijo "/" b = None ->
  conectar (Some (b ++ "/ws/")%string) w
    = NuevoWebSocket (b ++ "/ws/notificaciones?token=" ++ tok)%string
  /\ conectar (Some (b ++ "/ws")%string) w
    = NuevoWebSocket (b ++ "/ws/notificaciones?token=" ++ tok)%string
  /\ conectar None w
    = NuevoWebSocket ("ws://localhost:8000/ws/notificaciones?token=" ++ tok)%string
  /\ forall env, conectar env (removeToken w) = SinConexion.
Proof.
  intros Ht Hne Hb. apply String.eqb_neq in Hne.
  pose proof (limpiarBase_ws_barra b Hb) as H1.
  pose proof (limpiarBase_ws b Hb) as H2.
  assert (Hno : forall s c, js_o (Some (b ++ String c s)%string) "ws://localhost:8000"
                            = (b ++ String c s)%string).
  { intros s c. unfold js_o.
    destruct (String.eqb_spec (b ++ String c s) "") as [E|_]; [|reflexivity].
    destruct b; discriminate. }
  unfold conectar. rewrite Ht, Hne.
  rewrite (Hno "ws/" "/"%char), (Hno "ws" "/"%char), H1, H2.
  repeat split.
Qed.

Lemma conectar_address_witness :
  token mundo0 = Some "h.p.s"
  /\ "h.p.s" <> ""
  /\ sinSufijo "/" "wss://aether.example" = None
  /\ conectar (Some "wss://aether.example/ws/") mundo0
     = NuevoWebSocket "wss://aether.example/ws/notificaciones?token=h.p.s".
Proof.
  assert (Hne : "h.p.s" <> "") by discriminate.
  pose proof (conectar_address "wss://aether.example" "h.p.s" mundo0
                eq_refl Hne eq_refl) as (H & _).
  split; [reflexivity|]. split; [exact Hne|]. split; [reflexivity | exact H].
Defined.

(** ** The login form *)

(** X21: Whatever the server answers, a submit of the login form makes exactly
    one login call, with the two fields as they are, and ends with the
    busy flag off and the fields untouched; [onLogin] is called, with the
    answer of the server, exactly when the call resolved. *)
Theorem login_submit_calls_once (r : Respuesta Api.DatosLogin) (s : LoginPage.Estado) :
  let s' := LoginPage.handleSubmit r s in
  let llamada := LoginPage.Login (LoginPage.username (LoginPage.formData s))
                                 (LoginPage.password (LoginPage.formData s)) in
  LoginPage.loading s' = false
  /\ LoginPage.formData s' = LoginPage.formData s
  /\ match r with
     | Resuelve data =>
         LoginPage.acciones s' = LoginPage.acciones s ++ [llamada; LoginPage.OnLogin data]
         /\ LoginPage.error s' = ""
     | Rechaza _ =>
         LoginPage.acciones s'
         = LoginPage.acciones s
           ++ [llamada; LoginPage.ConsoleError "Error al iniciar sesión:"]
     end.
Proof.
  cbv zeta. destruct r as [data|e]; cbn.
  - repeat split. now rewrite <- app_assoc.
  - destruct (status_es (status e) 401); [|destruct (status_es (status e) 403)];
      cbn; repeat split; now rewrite <- app_assoc.
Qed.

(** X22: A failed login always leaves a message on screen, never an empty one:
    the fixed text for status 401 or 403 (even when the server sent a
    detail), otherwise the detail of the server when it is not empty,
    otherwise the generic text.  The message is gone after the next edit of
    either field. *)
Theorem login_failure_always_shows_a_message
    (e : ErrorHttp) (s : LoginPage.Estado) (name value : string) :
  let s' := LoginPage.handleSubmit (Rechaza e) s in
  LoginPage.error s' <> ""
  /\ (status e = Some 401 -> LoginPage.error s' = "Usuario o contraseña incorrectos")
  /\ (status e = Some 403 -> LoginPage.error s' = "Acceso denegado")
  /\ (LoginPage.error s' = "Usuario o contraseña incorrectos"
      \/ LoginPage.error s' = "Acceso denegado"
      \/ LoginPage.error s' = "Error al iniciar sesión. Por favor, verifica tu conexión."
      \/ detail e = Some (LoginPage.error s'))
  /\ LoginPage.error (LoginPage.handleChange name value s') = "".
Proof.
  cbv zeta. split; [|split; [|split; [|split]]].
  - cbn. destruct (status_es (status e) 401); [discriminate|].
    destruct (status_es (status e) 403); [discriminate|]. cbn.
    unfold js_o. destruct (detail e) as [d|]; [|discriminate].
    destruct (String.eqb_spec d "") as [E|E]; [discriminate | exact E].
  - intros H. cbn. now rewrite H.
  - intros H. cbn. now rewrite H.
  - cbn. destruct (status_es (status e) 401); [now left|].
    destruct (status_es (status e) 403); [right; now left|]. cbn.
    unfold js_o. destruct (detail e) as [d|]; [|right; right; now left].
    destruct (String.eqb d ""); [right; right; now left|].
    right. right. now right.
  - unfold LoginPage.handleChange.
    destruct (String.eqb (LoginPage.error _) "") eqn:E; [|reflexivity].
    apply String.eqb_eq in E. exact E.
Qed.

(** ** The session across a reload *)

Section Sesion3.

Variable JSON_stringify : Identidad -> string.

(** X23: The session check that [App] runs when the page loads always ends the
    waiting screen.  Without a stored token it makes no REST call and shows
    the login form.  With one, the identity call decides: when it resolves
    the dashboard is shown for the identity the server returned and the
    storage is kept; when it is rejected, for whatever reason (a network
    error as much as a 401), both storage keys are cleared and the login
    form is shown. *)
Theorem verificarSesion_outcomes (me : Respuesta Identidad) (v : Ventana) :
  let s' := App.verificarSesion me (App.alCargar v) in
  App.loading s' = false
  /\ match tokenGuardado (mundo v), me with
     | None, _ =>
         App.render s' = App.MuestraLogin
         /\ token (App.almacen s') = token (mundo v)
         /\ forall c, ~ In (Red c) (nuevos (mundo v) (App.almacen s'))
     | Some _, Resuelve data =>
         App.render s' = App.MuestraDashboard data
         /\ token (App.almacen s') = token (mundo v)
         /\ usuarioGuardado (App.almacen s') = usuarioGuardado (mundo v)
     | Some _, Rechaza _ =>
         App.render s' = App.MuestraLogin
         /\ token (App.almacen s') = None
         /\ usuarioGuardado (App.almacen s') = None
     end.
Proof.
  cbv zeta. unfold App.verificarSesion, App.alCargar, App.almacen.
  cbn [App.ventana].
  destruct (tokenGuardado (mundo v)) as [t|].
  - destruct me as [data|e]; cbn; repeat split.
  - cbn. repeat split.
    intros c.
    match goal with
    | |- context [nuevos ?a ?b] =>
        rewrite (nuevos_app a b [ConsoleLog "No hay token guardado"]) by reflexivity
    end.
    intros [H|[]]. discriminate.
Qed.

(** X24: Logging in, reloading the page and passing the session check brings
    the operator to the dashboard with the token the login returned still
    stored; logging out after a login leaves no token and no cached
    identity behind and sends the window to [/]. *)
Theorem login_survives_reload_and_logout_clears
    (d : Api.DatosLogin) (u : Identidad) (s : App.Estado) :
  Api.access_token d <> "" ->
  let s1 := App.handleLogin JSON_stringify d s in
  let s2 := App.verificarSesion (Resuelve u) (App.alCargar (App.ventana s1)) in
  let s3 := App.handleLogout s1 in
  App.usuario s1 = Some (Api.usuario d)
  /\ Api.authorization (App.ventana s1) = Some ("Bearer " ++ Api.access_token d)%string
  /\ App.render s2 = App.MuestraDashboard u
  /\ token (App.almacen s2) = Some (Api.access_token d)
  /\ usuarioGuardado (App.almacen s2) = Some (JSON_stringify (Api.usuario d))
  /\ App.usuario s3 = None
  /\ tokenGuardado (App.almacen s3) = None
  /\ usuarioGuardado (App.almacen s3) = None
  /\ destinos (App.ventana s3) = destinos (App.ventana s) ++ ["/"].
Proof.
  intros Hne. cbv zeta. apply String.eqb_neq in Hne.
  unfold App.handleLogin, App.verificarSesion, App.alCargar, App.handleLogout,
    App.almacen, Api.authorization, Api.logout, tokenGuardado.
  cbn. rewrite Hne. cbn. repeat split.
Qed.

End Sesion3.

(** ** The response interceptor *)

(** X25: A 401 on any call other than the login wipes the stored session: the
    next request carries no [Authorization] header, the next token check of
    the dashboard is the logout teardown without a REST call, and the window
    is sent to [/] unless it is already there.  A 401 on the login call, and
    every error with another status, leaves the storage and the window
    exactly as they were. *)
Theorem interceptor_wipes_session_on_401
    (url : string) (e : ErrorHttp) (v : Ventana) :
  let v' := Api.interceptorError url e v in
  (status e = Some 401 -> includes url "/auth/login" = false ->
     Api.authorization v' = None
     /\ tokenGuardado (mundo v') = None
     /\ usuarioGuardado (mundo v') = None
     /\ destinos v' = destinos v ++ (if String.eqb (pathname v) "/" then [] else ["/"])
     /\ forall dec me ahora c,
          ~ In (Red c) (nuevos (mundo v') (verificarToken dec me ahora (mundo v'))))
  /\ (status e <> Some 401 \/ includes url "/auth/login" = true -> v' = v).
Proof.
  cbv zeta. unfold Api.interceptorError. split.
  - intros Hs Hu. rewrite Hs, Hu. cbn [status_es Z.eqb Pos.eqb negb].
    cbn [enMundo pathname].
    assert (Hd : forall b, destinos (if negb b
                   then irA "/" (enMundo removeUsuario (enMundo removeToken v))
                   else enMundo removeUsuario (enMundo removeToken v))
                 = destinos v ++ (if b then [] else ["/"])).
    { intros [|]; cbn; [now rewrite app_nil_r | reflexivity]. }
    assert (Hm : forall b, mundo (if negb b
                   then irA "/" (enMundo removeUsuario (enMundo removeToken v))
                   else enMundo removeUsuario (enMundo removeToken v))
                 = removeUsuario (removeToken (mundo v))).
    { intros [|]; reflexivity. }
    unfold Api.authorization. rewrite Hm, Hd.
    repeat split.
    intros dec me ahora c.
    assert (E : verificarToken dec me ahora (removeUsuario (removeToken (mundo v)))
                = handleLogoutSesion (removeUsuario (removeToken (mundo v))))
      by reflexivity.
    rewrite E.
    destruct (handleLogoutSesion_efecto (removeUsuario (removeToken (mundo v))))
      as (_ & _ & He & _).
    rewrite (nuevos_app _ _ _ He).
    destruct (onLogout _); [intros [H|[]]; discriminate | intros []].
  - intros [Hs|Hu].
    + destruct (status e) as [n|]; cbn; [|reflexivity].
      destruct (Z.eqb_spec n 401) as [->|_]; [congruence | reflexivity].
    + rewrite Hu. cbn. now destruct (status_es (status e) 401).
Qed.

(** A 401 with a server detail: the fixed text wins. *)
Lemma login_failure_witness :
  let e := mkErrorHttp (Some 401) (Some "Token inválido") "Request failed" in
  let s := LoginPage.mkEstado (LoginPage.mkFormData "ana" "secreto") false "" [] in
  status e = Some 401
  /\ LoginPage.error (LoginPage.handleSubmit (Rechaza e) s)
     = "Usuario o contraseña incorrectos".
Proof.
  cbv zeta. split; [reflexivity|].
  exact (proj1 (proj2 (login_failure_always_shows_a_message
                         (mkErrorHttp (Some 401) (Some "Token inválido") "Request failed")
                         (LoginPage.mkEstado (LoginPage.mkFormData "ana" "secreto")
                            false "" [])
                         "username" "a")) eq_refl).
Defined.

Lemma login_survives_reload_witness :
  let d := Api.mkDatosLogin "h.p.s" (mkIdentidad "Ana Ruiz" "ana") in
  let s := App.alCargar (mkVentana (inicial None None true) "/" []) in
  Api.access_token d <> ""
  /\ App.render (App.verificarSesion (Resuelve (mkIdentidad "Ana Ruiz" "ana"))
                   (App.alCargar (App.ventana (App.handleLogin (fun u => username u) d s))))
     = App.MuestraDashboard (mkIdentidad "Ana Ruiz" "ana").
Proof.
  cbv zeta.
  assert (Hne : Api.access_token (Api.mkDatosLogin "h.p.s" (mkIdentidad "Ana Ruiz" "ana"))
                <> "") by discriminate.
  split; [exact Hne|].
  pose proof (login_survives_reload_and_logout_clears (fun u => username u)
                (Api.mkDatosLogin "h.p.s" (mkIdentidad "Ana Ruiz" "ana"))
                (mkIdentidad "Ana Ruiz" "ana")
                (App.alCargar (mkVentana (inicial None None true) "/" [])) Hne) as H.
  cbv zeta in H. destruct H as (_ & _ & H & _). exact H.
Defined.

(** A 401 on the pending-files call while the window is on another path. *)
Lemma interceptor_witness :
  let e := mkErrorHttp (Some 401) None "Request failed with status code 401" in
  let v := mkVentana mundo1 "/panel" [] in
  status e = Some 401
  /\ includes "/archivos/pendientes" "/auth/login" = false
  /\ Api.authorization (Api.interceptorError "/archivos/pendientes" e v) = None
  /\ destinos (Api.interceptorError "/archivos/pendientes" e v) = ["/"].
Proof.
  cbv zeta.
  pose proof (proj1 (interceptor_wipes_session_on_401 "/archivos/pendientes"
                (mkErrorHttp (Some 401) None "Request failed with status code 401")
                (mkVentana mundo1 "/panel" [])) eq_refl eq_refl) as (H1 & _ & _ & H2 & _).
  split; [reflexivity|]. split; [reflexivity|]. split; [exact H1 | exact H2].
Defined.

(** ** Repeated and reordered events *)

Lemma listado_snoc (a : Archivo) (l : list Archivo) :
  existsb (fun x => id_eqb (id x) (id a)) (l ++ [a]) = true.
Proof.
  rewrite existsb_app. cbn. rewrite id_eqb_refl. now rewrite orb_true_r.
Qed.

(** X26: The list, unlike the counters, is insensitive to a repeated delivery:
    applying the same [NUEVO_ARCHIVO] or [CAMBIO_ESTADO] message twice in a
    row leaves the same list as applying it once. *)
Theorem list_ignores_repeated_delivery (m : Mensaje) (w : Mundo) :
  archivos (applyEvent m (applyEvent m w)) = archivos (applyEvent m w).
Proof.
  destruct (String.eqb_spec (tipo m) "NUEVO_ARCHIVO") as [En|En].
  - destruct (applyEvent_nuevo m (applyEvent m w) En) as [H2 _].
    destruct (applyEvent_nuevo m w En) as [H1 _].
    cbv zeta in H1, H2. rewrite H2.
    assert (Hl : existsb (fun a => id_eqb (id a) (id (archivo m)))
                   (archivos (applyEvent m w)) = true).
    { rewrite H1.
      destruct (existsb _ (archivos w)) eqn:E; [exact E | apply listado_snoc]. }
    now rewrite Hl.
  - destruct (String.eqb_spec (tipo m) "CAMBIO_ESTADO") as [Ec|Ec].
    + destruct (applyEvent_cambio m (applyEvent m w) Ec) as [H2 _].
      destruct (applyEvent_cambio m w Ec) as [H1 _].
      cbv zeta in H1, H2. rewrite H2, H1. apply filter_dos_veces.
    + apply String.eqb_neq in En. apply String.eqb_neq in Ec.
      rewrite (applyEvent_eq m (applyEvent m w)). cbv zeta. now rewrite En, Ec.
Qed.

(** X27: The order of the two events of one file matters.  When the
    [NUEVO_ARCHIVO] of a file arrives after its [CAMBIO_ESTADO], the file
    is put (back) in the list; in the other order it is not listed. *)
Theorem late_nuevo_archivo_relists_the_file (n c : Mensaje) (w : Mundo) :
  tipo n = "NUEVO_ARCHIVO" ->
  tipo c = "CAMBIO_ESTADO" ->
  id (archivo c) = id (archivo n) ->
  listado (id (archivo n)) (applyEvent n (applyEvent c w)) = true
  /\ listado (id (archivo n)) (applyEvent c (applyEvent n w)) = false.
Proof.
  intros Hn Hc Hid. unfold listado. split.
  - destruct (applyEvent_nuevo n (applyEvent c w) Hn) as [H _].
    destruct (applyEvent_cambio c w Hc) as [H1 _].
    cbv zeta in H, H1. rewrite H, H1, Hid.
    rewrite filter_sin_id. apply listado_snoc.
  - destruct (applyEvent_cambio c (applyEvent n w) Hc) as [H _].
    cbv zeta in H. rewrite H, Hid. apply filter_sin_id.
Qed.

Lemma late_nuevo_archivo_witness :
  tipo (nuevoArchivo archivo1) = "NUEVO_ARCHIVO"
  /\ tipo aprobado1 = "CAMBIO_ESTADO"
  /\ id (archivo aprobado1) = id (archivo (nuevoArchivo archivo1))
  /\ listado (IdNum 1)
       (applyEvent (nuevoArchivo archivo1) (applyEvent aprobado1 mundo1)) = true.
Proof.
  split; [reflexivity|]. split; [reflexivity|]. split; [reflexivity|].
  exact (proj1 (late_nuevo_archivo_relists_the_file (nuevoArchivo archivo1)
                  aprobado1 mundo1 eq_refl eq_refl eq_refl)).
Defined.

Lemma filter_conmuta (i j : Id) (l : list Archivo) :
  filter (fun a => negb (id_eqb (id a) i))
         (filter (fun a => negb (id_eqb (id a) j)) l)
  = filter (fun a => negb (id_eqb (id a) j))
           (filter (fun a => negb (id_eqb (id a) i)) l).
Proof.
  induction l as [|a l IH]; simpl; [reflexivity|].
  destruct (id_eqb (id a) j) eqn:Ej, (id_eqb (id a) i) eqn:Ei; simpl;
    rewrite ?Ei, ?Ej; simpl; now rewrite IH.
Qed.

Lemma listado_filter_otro (i j : Id) (l : list Archivo) :
  id_eqb i j = false ->
  existsb (fun a => id_eqb (id a) i) (filter (fun a => negb (id_eqb (id a) j)) l)
  = existsb (fun a => id_eqb (id a) i) l.
Proof.
  intros Hij. induction l as [|a l IH]; simpl; [reflexivity|].
  destruct (id_eqb (id a) j) eqn:Ej; simpl.
  - apply id_eqb_eq in Ej.
    destruct (id_eqb (id a) i) eqn:Ei; [|exact IH].
    apply id_eqb_eq in Ei. rewrite <- Ei, Ej, id_eqb_refl in Hij. discriminate.
  - now rewrite IH.
Qed.

(** X28: Two [CAMBIO_ESTADO] frames, for the same file or for different
    ones, that each get a render of their own can arrive in either order:
    the list and the three counters end the same.  When both are appended
    before one render, only the later one is applied: the earlier one is
    in the log, but its file is not removed (it stays listed when it was
    listed and is another file) and the counters move once, as for the
    later frame alone; so for batched frames the order of arrival
    matters. *)
Theorem cambio_estado_commute_with_own_render (c1 c2 : Mensaje) (w : Mundo) :
  tipo c1 = "CAMBIO_ESTADO" ->
  tipo c2 = "CAMBIO_ESTADO" ->
  (archivos (entregarLote [c2] (entregarLote [c1] w))
   = archivos (entregarLote [c1] (entregarLote [c2] w))
   /\ stats (entregarLote [c2] (entregarLote [c1] w))
      = stats (entregarLote [c1] (entregarLote [c2] w)))
  /\ mensajes (entregarLote [c1; c2] w) = mensajes w ++ [c1; c2]
  /\ archivos (entregarLote [c1; c2] w)
     = filter (fun a => negb (id_eqb (id a) (id (archivo c2)))) (archivos w)
  /\ stats (entregarLote [c1; c2] w) = stats (entregarLote [c2] w)
  /\ (id_eqb (id (archivo c1)) (id (archivo c2)) = false ->
      listado (id (archivo c1)) (entregarLote [c1; c2] w)
      = listado (id (archivo c1)) w).
Proof.
  intros H1 H2.
  change (entregarLote [c1] w) with (applyEvent c1 w).
  change (entregarLote [c2] w) with (applyEvent c2 w).
  change (entregarLote [c2] (applyEvent c1 w)) with (applyEvent c2 (applyEvent c1 w)).
  change (entregarLote [c1] (applyEvent c2 w)) with (applyEvent c1 (applyEvent c2 w)).
  change (entregarLote [c1; c2] w) with (applyEvent c2 (agregarMensaje c1 w)).
  destruct (applyEvent_cambio c1 w H1) as (A1 & P1 & Q1 & R1 & _).
  destruct (applyEvent_cambio c2 w H2) as (A2 & P2 & Q2 & R2 & _).
  destruct (applyEvent_cambio c2 (applyEvent c1 w) H2) as (A21 & P21 & Q21 & R21 & _).
  destruct (applyEvent_cambio c1 (applyEvent c2 w) H1) as (A12 & P12 & Q12 & R12 & _).
  destruct (applyEvent_cambio c2 (agregarMensaje c1 w) H2) as (Ab & Pb & Qb & Rb & _).
  cbv zeta in *.
  change (archivos (agregarMensaje c1 w)) with (archivos w) in Ab.
  change (stats (agregarMensaje c1 w)) with (stats w) in Pb, Qb, Rb.
  split; [split|split; [|split; [|split]]].
  - rewrite A21, A12, A1, A2. apply filter_conmuta.
  - destruct (stats (applyEvent c2 (applyEvent c1 w))) as [p q r].
    destruct (stats (applyEvent c1 (applyEvent c2 w))) as [p' q' r'].
    cbn [pendientes procesados rechazados] in *.
    rewrite P1 in P21. rewrite Q1 in Q21. rewrite R1 in R21.
    rewrite P2 in P12. rewrite Q2 in Q12. rewrite R2 in R12.
    f_equal; lia.
  - rewrite applyEvent_eq. cbv zeta.
    destruct (String.eqb (tipo c2) "NUEVO_ARCHIVO");
      [|destruct (String.eqb (tipo c2) "CAMBIO_ESTADO")];
      cbn; now rewrite <- app_assoc.
  - exact Ab.
  - destruct (stats (applyEvent c2 (agregarMensaje c1 w))) as [p q r].
    destruct (stats (applyEvent c2 w)) as [p' q' r'].
    cbn [pendientes procesados rechazados] in *. f_equal; lia.
  - intros Hd. unfold listado. rewrite Ab. now apply listado_filter_otro.
Qed.

(** Files 1 and b-2 listed; the approval of 1 and the rejection of b-2
    arrive before one render: only the rejection is applied, file 1 stays
    listed and [procesados] stays at 0. *)
Lemma cambio_estado_commute_witness :
  let a2 := mkArchivo (IdStr "b-2") "b.xml" "XML" None (Some 3) None None None in
  let r2 := cambioEstado (IdStr "b-2") (Some "RECHAZADO") in
  let w := loadSnapshot [archivo1; a2] mundo0 in
  tipo aprobado1 = "CAMBIO_ESTADO"
  /\ tipo r2 = "CAMBIO_ESTADO"
  /\ stats (entregarLote [r2] (entregarLote [aprobado1] w))
     = stats (entregarLote [aprobado1] (entregarLote [r2] w))
  /\ archivos (entregarLote [aprobado1; r2] w) = [archivo1].
Proof.
  cbv zeta.
  pose proof (cambio_estado_commute_with_own_render aprobado1
                (cambioEstado (IdStr "b-2") (Some "RECHAZADO"))
                (loadSnapshot [archivo1;
                   mkArchivo (IdStr "b-2") "b.xml" "XML" None (Some 3) None None None]
                   mundo0)
                eq_refl eq_refl) as ((_ & Hs) & _ & Ha & _).
  split; [reflexivity|]. split; [reflexivity|]. split; [exact Hs | exact Ha].
Defined.

(** ** The invariants of the store under any batching of the frames *)

(** A delivery either leaves the state alone (a render with no new frame)
    or acts on the list and the counters as one step does, from a state
    with the same list and counters. *)
Lemma entregar_como_paso (e : Entrega) (w : Mundo) :
  entregar e w = w
  \/ exists p w0,
       entregar e w = paso p w0
       /\ archivos w0 = archivos w
       /\ stats w0 = stats w
       /\ (entregaSinRepetidos e -> pasoSinRepetidos p).
Proof.
  destruct e as [[|m0 ms0]|a ap c r|r].
  - now left.
  - right. assert (Hne : m0 :: ms0 <> []) by discriminate.
    destruct (exists_last Hne) as (ms & m & E). rewrite E.
    exists (PasoEvento m), (agregarVarios ms w).
    destruct (agregarVarios_campos ms w) as (_ & Ha & Hs & _).
    cbn [entregar paso pasoSinRepetidos]. rewrite entregarLote_snoc.
    repeat split; assumption.
  - right. exists (PasoComando a ap c r), w. cbn. repeat split.
  - right. exists (PasoCarga r), w. cbn [entregar paso]. repeat split.
    destruct r as [[data|]|err]; cbn; tauto.
Qed.

(** X29: The two invariants of the store hold however the frames are
    batched between renders: from a non-negative pending counter and a
    list with pairwise distinct ids, any run of renders (each after any
    number of appended frames), settled commands and snapshot loads leaves
    the pending counter non-negative and the listed ids pairwise distinct,
    provided each snapshot that resolves with a list has distinct ids
    itself. *)
Theorem store_invariants_under_any_batching (es : list Entrega) (w : Mundo) :
  0 <= pendientes (stats w) ->
  NoDup (ids (archivos w)) ->
  Forall entregaSinRepetidos es ->
  0 <= pendientes (stats (entregas es w))
  /\ NoDup (ids (archivos (entregas es w))).
Proof.
  revert w. induction es as [|e es IH]; intros w Hp Hd Hes; [now split|].
  change (entregas (e :: es) w) with (entregas es (entregar e w)).
  inversion Hes as [|x xs He Hrest]; subst.
  destruct (entregar_como_paso e w) as [E|(p & w0 & E & Ha & Hs & Hsr)].
  - rewrite E. now apply IH.
  - rewrite E. apply IH; [| |exact Hrest].
    + destruct (paso_stats p w0) as ([G|[G|[G|[data G]]]] & _);
        rewrite G, ?Hs; lia.
    + destruct (paso_archivos p w0)
        as [G|[(i & G)|[(a & Hl & G)|[G|(data & Ep & G)]]]]; rewrite G, ?Ha.
      * exact Hd.
      * now apply NoDup_ids_filter.
      * apply NoDup_ids_snoc; [exact Hd|]. apply no_listado_no_in.
        unfold listado in Hl. now rewrite Ha in Hl.
      * constructor.
      * specialize (Hsr He). subst p. exact Hsr.
Qed.

(** Two announcements and an approval appended before one render, then a
    repeated announcement with a render of its own. *)
Lemma store_invariants_witness :
  let es := [ELote [nuevoArchivo archivo1; nuevoArchivo archivo1; aprobado1];
             ELote [nuevoArchivo archivo1]] in
  0 <= pendientes (stats mundo1)
  /\ NoDup (ids (archivos mundo1))
  /\ Forall entregaSinRepetidos es
  /\ NoDup (ids (archivos (entregas es mundo1))).
Proof.
  cbv zeta.
  assert (H0 : 0 <= pendientes (stats mundo1)) by (cbn; lia).
  assert (H1 : NoDup (ids (archivos mundo1))).
  { cbn. constructor; [intros []|constructor]. }
  assert (H2 : Forall entregaSinRepetidos
                 [ELote [nuevoArchivo archivo1; nuevoArchivo archivo1; aprobado1];
                  ELote [nuevoArchivo archivo1]]).
  { constructor; [exact I|]. constructor; [exact I|constructor]. }
  split; [exact H0|]. split; [exact H1|]. split; [exact H2|].
  exact (proj2 (store_invariants_under_any_batching _ mundo1 H0 H1 H2)).
Defined.
